(** * og-impact-editor: the live-compilation, persistence and publish pipeline

    A shallow embedding of [src/App.js]: the [Preview] component's template
    compilation with its fallback, the [App] component's editing handlers,
    the debounced write to [localStorage], the [publish] callback and the
    [Button] that triggers it.

    JavaScript values are an inductive type, exceptions are an explicit
    completion ([Normal] / [Throw]) threaded through a small state monad,
    [localStorage] is a finite map from keys to text, and time is a
    virtual clock in milliseconds. *)

From Stdlib Require Import ZArith Lia Ascii.
From stdpp Require Import base gmap strings list pretty.

Local Set Warnings "-register-all,-clear-no-such-hyp".
Local Open Scope Z_scope.
Local Open Scope string_scope.

(** ** JavaScript values and errors *)

(** The values [JSON.parse] produces.  Numbers are restricted to integers
    (of a size printed in plain decimal): nothing in the program computes
    with them. *)
Inductive JSValue : Type :=
| JSNull
| JSBool (b : bool)
| JSNumber (n : Z)
| JSString (s : string)
| JSArray (items : list JSValue)
| JSObject (fields : list (string * JSValue)).

(** An exception object: its [name] and [message]. *)
Record JSError : Type := mkError { err_name : string; err_message : string }.

(** ToBoolean, as used by [||] and [!]. *)
Definition truthy (v : JSValue) : bool :=
  match v with
  | JSNull => false
  | JSBool b => b
  | JSNumber n => negb (Z.eqb n 0)
  | JSString s => negb (String.eqb s "")
  | JSArray _ => true
  | JSObject _ => true
  end.

Definition truthy_text (s : string) : bool := negb (String.eqb s "").

(** [a || b] where [a] may be [null] (absent): the first operand when it is
    truthy, else the second. *)
Definition or_default_text (stored : option string) (dflt : string) : string :=
  match stored with
  | Some s => if truthy_text s then s else dflt
  | None => dflt
  end.

Definition or_default_value (stored : option JSValue) (dflt : JSValue) : JSValue :=
  match stored with
  | Some v => if truthy v then v else dflt
  | None => dflt
  end.

Fixpoint lookup_field (k : string) (fields : list (string * JSValue)) : option JSValue :=
  match fields with
  | [] => None
  | (k', v) :: rest => if String.eqb k k' then Some v else lookup_field k rest
  end.

Fixpoint join (sep : string) (parts : list string) : string :=
  match parts with
  | [] => ""
  | [p] => p
  | p :: rest => p +:+ sep +:+ join sep rest
  end.

(** ToString, as applied by a template literal.  [None] is [undefined]. *)
Fixpoint to_text (v : JSValue) : string :=
  match v with
  | JSNull => "null"
  | JSBool true => "true"
  | JSBool false => "false"
  | JSNumber n => pretty n
  | JSString s => s
  | JSArray items =>
      join "," ((fix each (l : list JSValue) : list string :=
                   match l with
                   | [] => []
                   | JSNull :: l' => "" :: each l'
                   | x :: l' => to_text x :: each l'
                   end) items)
  | JSObject _ => "[object Object]"
  end.

Definition to_text_opt (v : option JSValue) : string :=
  match v with
  | Some x => to_text x
  | None => "undefined"
  end.

(** ** What the program takes from its platform

    [JSON.parse], [JSON.stringify] and the Handlebars engine are not part
    of the repository.  The program is modelled over any implementation of
    them; [inl e] is a thrown exception [e]. *)
Class Runtime : Type := {
  JSON_parse : string -> JSError + JSValue;
  (** [JSON.stringify(v, null, space)] *)
  JSON_stringify : JSValue -> nat -> string;
  (** [handlebars.compile(template)(data)] *)
  handlebars_compile : string -> JSValue -> JSError + string
}.

(** ** The world the components act on *)

Inductive LogArg : Type :=
| LText (s : string)
| LError (e : JSError).

Inductive LogEntry : Type :=
| ConsoleWarn (a : LogArg)
| ConsoleLog (a : LogArg).

(** One [axios.post] call: URL, JSON payload and headers. *)
Record Request : Type := mkRequest {
  req_url : string;
  req_body : string;
  req_styles : string;
  req_content_type : string;
  req_authorization : string
}.

Record Browser : Type := mkBrowser {
  console : list LogEntry;
  alerts : list string;
  requests : list Request;
  localStorage : gmap string string
}.

(** The [useState] cells of [App]. *)
Record AppState : Type := mkApp {
  html : string;
  css : string;
  params : JSValue;
  paramsJson : string;
  apiKey : string
}.

(** ** The debounce scheduler *)

Record DebounceConfig : Type := mkDebounce {
  delay : Z;
  maxWait : option Z
}.

(** A pending call: the arguments of the last call, the end of the current
    delay window, and the ceiling fixed by the first call of the burst. *)
Record Pending (A : Type) : Type := mkPending {
  pending_args : A;
  quiet_at : Z;
  ceiling : option Z
}.
Arguments mkPending {A} _ _ _.
Arguments pending_args {A} _.
Arguments quiet_at {A} _.
Arguments ceiling {A} _.

(** Modelled from the spec: the implementation of [debounce]
    ([lodash.debounce]) is not in the repository.  Section 4.1: a call
    registers the function to run after [delay] of quiescence since the
    last call; a call that arrives while one is pending cancels the pending
    timer and restarts the delay window, "except that the maxWait ceiling
    is never reset by subsequent calls": it stays [maxWait] after the first
    pending call of the burst. *)
Definition schedule {A : Type} (cfg : DebounceConfig) (now : Z) (a : A)
    (st : option (Pending A)) : option (Pending A) :=
  match st with
  | None => Some (mkPending a (now + delay cfg) ((fun m => now + m) <$> maxWait cfg))
  | Some p => Some (mkPending a (now + delay cfg) (ceiling p))
  end.

(** Modelled from the spec: the instant at which the pending call of a
    [debounce] instance runs: at quiescence, or at the ceiling when calls
    keep arriving ("execution is forced once maxWait has elapsed since the
    first pending call in the current burst"). *)
Definition due_at {A : Type} (p : Pending A) : Z :=
  match ceiling p with
  | Some c => Z.min (quiet_at p) c
  | None => quiet_at p
  end.

(** Modelled from the spec: the timer of a [debounce] instance, observed
    when the clock reads [now].  A due call runs once, with the arguments of
    the last call, and leaves nothing pending. *)
Definition expire {A : Type} (now : Z) (st : option (Pending A))
    : option (Z * A) * option (Pending A) :=
  match st with
  | Some p => if Z.leb (due_at p) now then (Some (due_at p, pending_args p), None)
              else (None, st)
  | None => (None, None)
  end.

(** A stream of calls [(time, arguments)] to one instance, in the order
    they are made; the result lists the executions [(time, arguments)] that
    happen up to the last call, and what is still pending. *)
Fixpoint run_calls {A : Type} (cfg : DebounceConfig) (calls : list (Z * A))
    (st : option (Pending A)) : list (Z * A) * option (Pending A) :=
  match calls with
  | [] => ([], st)
  | (t, a) :: rest =>
      let '(fired, st') := expire t st in
      let '(later, final) := run_calls cfg rest (schedule cfg t a st') in
      (match fired with Some x => x :: later | None => later end, final)
  end.

(** The executions of an idle instance given [calls], observed at [until]. *)
Definition executions {A : Type} (cfg : DebounceConfig) (calls : list (Z * A))
    (until : Z) : list (Z * A) :=
  let '(done, st) := run_calls cfg calls None in
  match fst (expire until st) with
  | Some x => done ++ [x]
  | None => done
  end.

(** Calls are made in time order, none before [from]. *)
Fixpoint chronological {A : Type} (from : Z) (calls : list (Z * A)) : Prop :=
  match calls with
  | [] => True
  | (t, _) :: rest => from <= t /\ chronological t rest
  end.

(** Consecutive calls are less than [gap] apart. *)
Fixpoint spaced_within {A : Type} (gap : Z) (prev : Z) (calls : list (Z * A)) : Prop :=
  match calls with
  | [] => True
  | (t, _) :: rest => t - prev < gap /\ spaced_within gap t rest
  end.

Definition last_time {A : Type} (t0 : Z) (calls : list (Z * A)) : Z :=
  match last calls with
  | Some (t, _) => t
  | None => t0
  end.

Definition last_args {A : Type} (a0 : A) (calls : list (Z * A)) : A :=
  match last calls with
  | Some (_, a) => a
  | None => a0
  end.

(** [debouncedWriteStorage]: [debounce(..., 1000, { maxWait: 5000 })]. *)
Definition debouncedWriteStorage_config : DebounceConfig :=
  mkDebounce 1000 (Some 5000).

(** The arguments of one [debouncedWriteStorage] call. *)
Record SaveArgs : Type := mkSave {
  save_html : string;
  save_css : string;
  save_params : JSValue
}.

(** ** Components' state and the effect monad *)

Record Session : Type := mkSession {
  app : AppState;
  loading : bool;            (* the [Button]'s [useState(false)] *)
  compiledHtml : string;     (* the [Preview]'s [useState] *)
  browser : Browser;
  saver : option (Pending SaveArgs)
}.

Inductive Completion (A : Type) : Type :=
| Normal (a : A)
| Throw (e : JSError).
Arguments Normal {A} _.
Arguments Throw {A} _.

Definition Eff (A : Type) : Type := Session -> Completion A * Session.

#[export] Instance Eff_ret : MRet Eff := fun A a s => (Normal a, s).

#[export] Instance Eff_bind : MBind Eff := fun A B f m s =>
  match m s with
  | (Normal a, s') => f a s'
  | (Throw e, s') => (Throw e, s')
  end.

(** [try { body } catch (e) { handler }] *)
Definition try_catch {A : Type} (body : Eff A) (handler : JSError -> Eff A) : Eff A :=
  fun s =>
    match body s with
    | (Normal a, s') => (Normal a, s')
    | (Throw e, s') => handler e s'
    end.

(** The outcome of a call of a platform function. *)
Definition lift_js {A : Type} (r : JSError + A) : Eff A :=
  fun s => match r with inl e => (Throw e, s) | inr a => (Normal a, s) end.

Definition modify (f : Session -> Session) : Eff unit := fun s => (Normal tt, f s).

Definition with_app (f : AppState -> AppState) (s : Session) : Session :=
  mkSession (f (app s)) (loading s) (compiledHtml s) (browser s) (saver s).

Definition with_browser (f : Browser -> Browser) (s : Session) : Session :=
  mkSession (app s) (loading s) (compiledHtml s) (f (browser s)) (saver s).

Definition with_saver (f : option (Pending SaveArgs) -> option (Pending SaveArgs))
    (s : Session) : Session :=
  mkSession (app s) (loading s) (compiledHtml s) (browser s) (f (saver s)).

Definition setHtml (v : string) : Eff unit :=
  modify (with_app (fun a => mkApp v (css a) (params a) (paramsJson a) (apiKey a))).
Definition setCss (v : string) : Eff unit :=
  modify (with_app (fun a => mkApp (html a) v (params a) (paramsJson a) (apiKey a))).
Definition setParams (v : JSValue) : Eff unit :=
  modify (with_app (fun a => mkApp (html a) (css a) v (paramsJson a) (apiKey a))).
Definition setParamsJson (v : string) : Eff unit :=
  modify (with_app (fun a => mkApp (html a) (css a) (params a) v (apiKey a))).
Definition setApiKey (v : string) : Eff unit :=
  modify (with_app (fun a => mkApp (html a) (css a) (params a) (paramsJson a) v)).
Definition setLoading (b : bool) : Eff unit :=
  modify (fun s => mkSession (app s) b (compiledHtml s) (browser s) (saver s)).
Definition setCompiledHtml (v : string) : Eff unit :=
  modify (fun s => mkSession (app s) (loading s) v (browser s) (saver s)).

Definition emit (e : LogEntry) : Eff unit :=
  modify (with_browser (fun b =>
    mkBrowser (console b ++ [e]) (alerts b) (requests b) (localStorage b))).
Definition console_warn (a : LogArg) : Eff unit := emit (ConsoleWarn a).
Definition console_log (a : LogArg) : Eff unit := emit (ConsoleLog a).

Definition alert (msg : string) : Eff unit :=
  modify (with_browser (fun b =>
    mkBrowser (console b) (alerts b ++ [msg]) (requests b) (localStorage b))).

(** ** [Preview] *)

Definition compile_warning : string :=
  "Error when compiling handlebars, using raw HTML".

(** The initializer of [useState] for [compiledHtml]. *)
Definition Preview_init `{Runtime} (html : string) (params : JSValue) : Eff string :=
  try_catch
    (lift_js (handlebars_compile html params))
    (fun e =>
       console_warn (LText compile_warning);;
       console_warn (LError e);;
       mret html).

(** The body of the [useEffect] that depends on the debounced values. *)
Definition Preview_effect `{Runtime} (debouncedHtml : string)
    (debouncedParams : JSValue) : Eff unit :=
  try_catch
    (compiled ← lift_js (handlebars_compile debouncedHtml debouncedParams);
     setCompiledHtml compiled)
    (fun e =>
       console_warn (LText compile_warning);;
       console_warn (LError e);;
       setCompiledHtml debouncedHtml).

(** First render of [Preview]: the initializer, then the effect, which
    runs once on mount with the debounced values equal to the props. *)
Definition Preview_mount `{Runtime} (html : string) (params : JSValue) : Eff unit :=
  v ← Preview_init html params;
  setCompiledHtml v;;
  Preview_effect html params.

(** ** Persistence *)

(** Modelled from the spec: [writeStorage] of [@rehooks/local-storage] is
    not in the repository.  Section 6: the store has "three string-valued
    keys (html, css, params)"; a text is stored as it is. *)
Definition writeStorage_text (key value : string) : Eff unit :=
  modify (with_browser (fun b =>
    mkBrowser (console b) (alerts b) (requests b) (<[key := value]> (localStorage b)))).

(** Modelled from the spec: [writeStorage] applied to the data object.
    Section 6: "params stores the JSON-serialized DataObject". *)
Definition writeStorage_value `{Runtime} (key : string) (value : JSValue) : Eff unit :=
  writeStorage_text key (JSON_stringify value 0).

(** Modelled from the spec: [useLocalStorage] of [@rehooks/local-storage]
    is not in the repository.  Section 6: the "reader must tolerate any key
    being absent"; [None] is that absence. *)
Definition useLocalStorage_text (key : string) (b : Browser) : option string :=
  localStorage b !! key.

(** Modelled from the spec: [useLocalStorage] for the key that holds the
    JSON-serialized data object.  The spec does not say what a stored text
    that is not JSON reads as; it reads as absent here. *)
Definition useLocalStorage_value `{Runtime} (key : string) (b : Browser) : option JSValue :=
  match localStorage b !! key with
  | Some text => match JSON_parse text with inr v => Some v | inl _ => None end
  | None => None
  end.

(** The function wrapped by [debouncedWriteStorage]. *)
Definition write_snapshot `{Runtime} (a : SaveArgs) : Eff unit :=
  writeStorage_text "html" (save_html a);;
  writeStorage_text "css" (save_css a);;
  writeStorage_value "params" (save_params a).

(** A call [debouncedWriteStorage(html, css, params)] made at [now]. *)
Definition debouncedWriteStorage (now : Z) (a : SaveArgs) : Eff unit :=
  modify (with_saver (schedule debouncedWriteStorage_config now a)).

(** The timer of [debouncedWriteStorage], observed at [now]. *)
Definition tick `{Runtime} (now : Z) : Eff unit :=
  fun s =>
    match expire now (saver s) with
    | (Some (_, a), st') => write_snapshot a (with_saver (fun _ => st') s)
    | (None, _) => (Normal tt, s)
    end.

(** ** [App] *)

(** The built-in example documents, [./html-example] and [./css-example],
    which are not among the sources. *)
Class Examples : Type := {
  htmlExample : string;
  cssExample : string
}.

Definition default_params : JSValue :=
  JSObject [("title", JSString "Hello, World!")].

(** What the three [useLocalStorage] calls of [App] return; [None] is a
    key that is absent. *)
Record PersistedSnapshot : Type := mkSnapshot {
  storedHtml : option string;
  storedCss : option string;
  storedParams : option JSValue
}.

Definition load `{Runtime} (b : Browser) : PersistedSnapshot :=
  mkSnapshot (useLocalStorage_text "html" b)
             (useLocalStorage_text "css" b)
             (useLocalStorage_value "params" b).

(** The initial values of the [useState] cells, given what was read from
    the store. *)
Definition App_init `{Runtime} `{Examples} (b : Browser) : AppState :=
  let stored := load b in
  let params := or_default_value (storedParams stored) default_params in
  mkApp (or_default_text (storedHtml stored) htmlExample)
        (or_default_text (storedCss stored) cssExample)
        params
        (JSON_stringify params 2)
        "".

(** [onChange] of the data editor. *)
Definition onChangeData `{Runtime} (val : string) : Eff unit :=
  try_catch
    (v ← lift_js (JSON_parse val);
     setParams v;;
     setParamsJson val)
    (fun _ => console_warn (LText "Error parsing JSON")).

(** The body of the [useEffect] that depends on [html], [css], [params]. *)
Definition persist_effect (now : Z) : Eff unit :=
  fun s =>
    debouncedWriteStorage now
      (mkSave (html (app s)) (css (app s)) (params (app s))) s.

(** ** [publish] and [Button] *)

Definition host : string := "https://ssfy.sh/chrisvxd/og-impact".

Definition missing_key_message : string :=
  "Please provide your API key before publishing a template.".

Definition publish_failed_message : string :=
  "Publish was unsuccessful. Please ensure you are providing a valid API key.".

(** What the network answers to one request. *)
Inductive HttpReply : Type :=
| NetworkFailure (e : JSError)
| HttpResponse (status : Z) (data : JSValue).

Record Response : Type := mkResponse { data : JSValue }.

(** Modelled from the spec: [axios] is not in the repository.  Section 6:
    "Any non-2xx or network failure is a Failure"; the promise is rejected
    in these cases and resolved with the response otherwise. *)
Definition axios_settle (reply : HttpReply) : JSError + Response :=
  match reply with
  | NetworkFailure e => inl e
  | HttpResponse status body =>
      if Z.leb 200 status && Z.ltb status 300 then inr (mkResponse body)
      else inl (mkError "Error" ("Request failed with status code " +:+ pretty status))
  end.

(** [await axios.post(url, payload, config)], answered by [reply]. *)
Definition axios_post (reply : HttpReply) (req : Request) : Eff Response :=
  modify (with_browser (fun b =>
    mkBrowser (console b) (alerts b) (requests b ++ [req]) (localStorage b)));;
  lift_js (axios_settle reply).

(** [body.template]: a [TypeError] on [null], [undefined] ([None]) when
    the field is missing or [body] is not an object. *)
Definition get_template (body : JSValue) : JSError + option JSValue :=
  match body with
  | JSNull =>
      inl (mkError "TypeError" "Cannot read properties of null (reading 'template')")
  | JSObject fields => inr (lookup_field "template" fields)
  | _ => inr None
  end.

Definition publish (reply : HttpReply) : Eff unit :=
  fun s =>
    let a := app s in
    (if negb (truthy_text (apiKey a)) then
       alert missing_key_message
     else
       try_catch
         (response ← axios_post reply
            (mkRequest (host +:+ "/publish") (html a) (css a)
                       "application/json" (apiKey a));
          template ← lift_js (get_template (data response));
          alert ("Save successful. Use template ID " +:+ to_text_opt template +:+ "."))
         (fun e =>
            alert publish_failed_message;;
            console_log (LError e))) s.

(** [onClick] of [Button]. *)
Definition Button_onClick (onClick : Eff unit) : Eff unit :=
  setLoading true;;
  onClick;;
  setLoading false.

(** ** A session: events handled to completion, one after the other *)

Inductive Event : Type :=
| EditHtml (text : string)
| EditCss (text : string)
| EditData (text : string)
| TypeApiKey (text : string)
| ClickPublish (reply : HttpReply).

Definition handle `{Runtime} (ev : Event) : Eff unit :=
  match ev with
  | EditHtml v => setHtml v
  | EditCss v => setCss v
  | EditData v => onChangeData v
  | TypeApiKey v => setApiKey v
  | ClickPublish reply => Button_onClick (publish reply)
  end.

(** [Object.is] between the current [params] and a freshly parsed value:
    an object or array returned by [JSON.parse] is a new one. *)
Definition Object_is (old fresh : JSValue) : bool :=
  match old, fresh with
  | JSNull, JSNull => true
  | JSBool x, JSBool y => Bool.eqb x y
  | JSNumber x, JSNumber y => Z.eqb x y
  | JSString x, JSString y => String.eqb x y
  | _, _ => false
  end.

(** Whether handling [ev] changes a dependency of the persistence effect. *)
Definition deps_changed `{Runtime} (ev : Event) (before : AppState) : bool :=
  match ev with
  | EditHtml v => negb (String.eqb (html before) v)
  | EditCss v => negb (String.eqb (css before) v)
  | EditData v =>
      match JSON_parse v with
      | inr p => negb (Object_is (params before) p)
      | inl _ => false
      end
  | TypeApiKey _ => false
  | ClickPublish _ => false
  end.

(** One event at time [now]: timers that are due run first, then the
    handler, then the effect when one of its dependencies changed. *)
Definition step `{Runtime} (now : Z) (ev : Event) (s : Session) : Session :=
  let s1 := snd (tick now s) in
  let s2 := snd (handle ev s1) in
  if deps_changed ev (app s1) then snd (persist_effect now s2) else s2.

Fixpoint run `{Runtime} (evs : list (Z * Event)) (s : Session) : Session :=
  match evs with
  | [] => s
  | (t, ev) :: rest => run rest (step t ev s)
  end.

(** The first render at [now] over the browser [b]: initial state, the
    mount of [Preview], then the persistence effect of [App]. *)
Definition mount `{Runtime} `{Examples} (now : Z) (b : Browser) : Session :=
  let a := App_init b in
  snd ((Preview_mount (html a) (params a);; persist_effect now)
         (mkSession a false "" b None)).



(** ** A runtime for a fragment of JSON and of the template language

    An implementation of [Runtime] to evaluate the program on concrete
    inputs.  JSON: [null], [true], [false], integers, strings of printable
    ASCII with the two-character escapes, arrays and objects.  Templates:
    literal text and [{{name}}] for a field [name] of the data object.
    Texts outside the fragment are reported as errors. *)
Module Fragment.

Definition is_ws (c : ascii) : bool :=
  match c with
  | " "%char | "009"%char | "010"%char | "013"%char => true
  | _ => false
  end.

Fixpoint skip_ws (s : string) : string :=
  match s with
  | String c rest => if is_ws c then skip_ws rest else s
  | EmptyString => s
  end.

Definition digit_value (c : ascii) : option Z :=
  let n := Z.of_N (Ascii.N_of_ascii c) in
  if Z.leb 48 n && Z.leb n 57 then Some (n - 48) else None.

Definition dquote : ascii := Ascii.ascii_of_nat 34.
Definition backslash : ascii := Ascii.ascii_of_nat 92.

Definition syntax_error : JSError := mkError "SyntaxError" "Unexpected token in JSON".

(** The characters after a backslash in a string literal. *)
Definition unescape (c : ascii) : option ascii :=
  if Ascii.eqb c dquote then Some dquote else
  if Ascii.eqb c backslash then Some backslash else
  match c with
  | "/"%char => Some "/"%char
  | "b"%char => Some "008"%char
  | "f"%char => Some "012"%char
  | "n"%char => Some "010"%char
  | "r"%char => Some "013"%char
  | "t"%char => Some "009"%char
  | _ => None
  end.

(** A string literal after its opening quote: contents and remainder. *)
Fixpoint string_body (s : string) : option (string * string) :=
  match s with
  | EmptyString => None
  | String c rest =>
      if Ascii.eqb c dquote then Some (EmptyString, rest)
      else if Ascii.eqb c backslash then
        match rest with
        | String e rest' =>
            match unescape e, string_body rest' with
            | Some c', Some (body, rest'') => Some (String c' body, rest'')
            | _, _ => None
            end
        | EmptyString => None
        end
      else if Z.ltb (Z.of_N (Ascii.N_of_ascii c)) 32 then None
      else match string_body rest with
           | Some (body, rest') => Some (String c body, rest')
           | None => None
           end
  end.

Fixpoint digits (acc : Z) (s : string) : Z * string :=
  match s with
  | String c rest =>
      match digit_value c with
      | Some d => digits (10 * acc + d) rest
      | None => (acc, s)
      end
  | EmptyString => (acc, s)
  end.

(** An integer without sign: no leading zero, no fraction, no exponent. *)
Definition natural (s : string) : option (Z * string) :=
  match s with
  | String c rest =>
      match digit_value c with
      | Some d =>
          let '(n, rest') := if Z.eqb d 0 then (0, rest) else digits d rest in
          match rest' with
          | String c' _ =>
              match digit_value c', c' with
              | Some _, _ | _, "."%char | _, "e"%char | _, "E"%char => None
              | _, _ => Some (n, rest')
              end
          | EmptyString => Some (n, rest')
          end
      | None => None
      end
  | EmptyString => None
  end.

Fixpoint strip_prefix (p s : string) : option string :=
  match p, s with
  | EmptyString, _ => Some s
  | String a p', String b s' => if Ascii.eqb a b then strip_prefix p' s' else None
  | String _ _, EmptyString => None
  end.

(** Assignment to a property: in place when the key exists. *)
Fixpoint set_field (k : string) (v : JSValue) (fields : list (string * JSValue))
    : list (string * JSValue) :=
  match fields with
  | [] => [(k, v)]
  | (k', v') :: rest =>
      if String.eqb k k' then (k, v) :: rest else (k', v') :: set_field k v rest
  end.

Fixpoint value (fuel : nat) (s : string) : option (JSValue * string) :=
  match fuel with
  | O => None
  | S fuel' =>
      match skip_ws s with
      | String "n"%char rest =>
          (fun r => (JSNull, r)) <$> strip_prefix "ull" rest
      | String "t"%char rest =>
          (fun r => (JSBool true, r)) <$> strip_prefix "rue" rest
      | String "f"%char rest =>
          (fun r => (JSBool false, r)) <$> strip_prefix "alse" rest
      | String "-"%char rest =>
          (fun '(n, r) => (JSNumber (- n), r)) <$> natural rest
      | String "["%char rest =>
          match skip_ws rest with
          | String "]"%char rest' => Some (JSArray [], rest')
          | _ => elements fuel' [] rest
          end
      | String "{"%char rest =>
          match skip_ws rest with
          | String "}"%char rest' => Some (JSObject [], rest')
          | _ => members fuel' [] rest
          end
      | String c rest =>
          if Ascii.eqb c dquote
          then (fun '(body, r) => (JSString body, r)) <$> string_body rest
          else (fun '(n, r) => (JSNumber n, r)) <$> natural (String c rest)
      | EmptyString => None
      end
  end
with elements (fuel : nat) (acc : list JSValue) (s : string)
    : option (JSValue * string) :=
  match fuel with
  | O => None
  | S fuel' =>
      match value fuel' s with
      | Some (v, rest) =>
          match skip_ws rest with
          | String ","%char rest' => elements fuel' (acc ++ [v]) rest'
          | String "]"%char rest' => Some (JSArray (acc ++ [v]), rest')
          | _ => None
          end
      | None => None
      end
  end
with members (fuel : nat) (acc : list (string * JSValue)) (s : string)
    : option (JSValue * string) :=
  match fuel with
  | O => None
  | S fuel' =>
      match skip_ws s with
      | String c rest =>
          match (if Ascii.eqb c dquote then string_body rest else None) with
          | Some (k, rest1) =>
              match skip_ws rest1 with
              | String ":"%char rest2 =>
                  match value fuel' rest2 with
                  | Some (v, rest3) =>
                      match skip_ws rest3 with
                      | String ","%char rest4 => members fuel' (set_field k v acc) rest4
                      | String "}"%char rest4 => Some (JSObject (set_field k v acc), rest4)
                      | _ => None
                      end
                  | None => None
                  end
              | _ => None
              end
          | None => None
          end
      | EmptyString => None
      end
  end.

Definition parse (s : string) : JSError + JSValue :=
  match value (2 * String.length s + 2) s with
  | Some (v, rest) =>
      match skip_ws rest with
      | EmptyString => inr v
      | String _ _ => inl syntax_error
      end
  | None => inl syntax_error
  end.

Definition hex_digit (n : Z) : ascii :=
  Ascii.ascii_of_N (Z.to_N (if Z.ltb n 10 then 48 + n else 87 + n)).

Definition escape_char (c : ascii) : string :=
  if Ascii.eqb c dquote then String backslash (String dquote EmptyString) else
  if Ascii.eqb c backslash then String backslash (String backslash EmptyString) else
  match c with
  | "008"%char => "\b"
  | "012"%char => "\f"
  | "010"%char => "\n"
  | "013"%char => "\r"
  | "009"%char => "\t"
  | _ =>
      let n := Z.of_N (Ascii.N_of_ascii c) in
      if Z.ltb n 32
      then "\u00" +:+ String (hex_digit (n / 16)) (String (hex_digit (n mod 16)) "")
      else String c ""
  end.

Fixpoint escape (s : string) : string :=
  match s with
  | EmptyString => ""
  | String c rest => escape_char c +:+ escape rest
  end.

Definition quote (s : string) : string :=
  String dquote (escape s +:+ String dquote EmptyString).

Fixpoint spaces (n : nat) : string :=
  match n with
  | O => ""
  | S n' => String " " (spaces n')
  end.

Definition newline : string := String "010" "".

(** An array or object around its already printed [items]. *)
Definition bracket (open close : string) (gap level : nat) (items : list string) : string :=
  match items, gap with
  | [], _ => open +:+ close
  | _, O => open +:+ join "," items +:+ close
  | _, _ =>
      let inner := newline +:+ spaces (gap * S level) in
      open +:+ inner +:+ join ("," +:+ inner) items
           +:+ newline +:+ spaces (gap * level) +:+ close
  end.

Fixpoint print (gap level : nat) (v : JSValue) : string :=
  match v with
  | JSNull => "null"
  | JSBool true => "true"
  | JSBool false => "false"
  | JSNumber n => pretty n
  | JSString s => quote s
  | JSArray items =>
      bracket "[" "]" gap level
        ((fix each (l : list JSValue) : list string :=
            match l with
            | [] => []
            | x :: l' => print gap (S level) x :: each l'
            end) items)
  | JSObject fields =>
      bracket "{" "}" gap level
        ((fix each (l : list (string * JSValue)) : list string :=
            match l with
            | [] => []
            | (k, x) :: l' =>
                (quote k +:+ ":" +:+ (match gap with O => "" | S _ => " " end)
                         +:+ print gap (S level) x) :: each l'
            end) fields)
  end.

Definition stringify (v : JSValue) (space : nat) : string := print space 0 v.

(** The text between [{{] and the next [}}], and what follows. *)
Fixpoint mustache (s : string) : option (string * string) :=
  match s with
  | EmptyString => None
  | String "}"%char (String "}"%char rest) => Some ("", rest)
  | String c rest =>
      match mustache rest with
      | Some (inner, rest') => Some (String c inner, rest')
      | None => None
      end
  end.

Definition is_letter (c : ascii) : bool :=
  let n := Z.of_N (Ascii.N_of_ascii c) in
  (Z.leb 65 n && Z.leb n 90) || (Z.leb 97 n && Z.leb n 122) || Z.eqb n 95.

Fixpoint all_letters (s : string) : bool :=
  match s with
  | EmptyString => true
  | String c rest => is_letter c && all_letters rest
  end.

(** Names with a meaning of their own in the template language. *)
Definition reserved (name : string) : bool :=
  bool_decide (name ∈ ["true"; "false"; "null"; "undefined"; "this"; "if";
                       "unless"; "each"; "with"; "log"; "lookup";
                       "helperMissing"; "blockHelperMissing"; "constructor"]).

Definition is_field_name (name : string) : bool :=
  negb (String.eqb name "") && all_letters name && negb (reserved name).

(** The escaping applied to the value of [{{name}}]. *)
Definition escape_html_char (c : ascii) : string :=
  if Ascii.eqb c dquote then "&quot;" else
  match c with
  | "&"%char => "&amp;"
  | "<"%char => "&lt;"
  | ">"%char => "&gt;"
  | "'"%char => "&#x27;"
  | "`"%char => "&#x60;"
  | "="%char => "&#x3D;"
  | _ => String c ""
  end.

Fixpoint escape_html (s : string) : string :=
  match s with
  | EmptyString => ""
  | String c rest => escape_html_char c +:+ escape_html rest
  end.

Definition field_text (data : JSValue) (name : string) : string :=
  match data with
  | JSObject fields =>
      match lookup_field name fields with
      | Some JSNull | None => ""
      | Some v => escape_html (to_text v)
      end
  | _ => ""
  end.

Definition parse_error : JSError := mkError "Error" "Parse error".

Fixpoint render (fuel : nat) (data : JSValue) (s : string) : JSError + string :=
  match fuel with
  | O => inl parse_error
  | S fuel' =>
      match s with
      | EmptyString => inr ""
      | String "{"%char (String "{"%char rest) =>
          match mustache rest with
          | Some (name, rest') =>
              if is_field_name name then
                match render fuel' data rest' with
                | inr out => inr (field_text data name +:+ out)
                | inl e => inl e
                end
              else inl parse_error
          | None => inl parse_error
          end
      | String c rest =>
          match render fuel' data rest with
          | inr out => inr (String c out)
          | inl e => inl e
          end
      end
  end.

Definition compile (template : string) (data : JSValue) : JSError + string :=
  render (S (String.length template)) data template.

#[export] Instance runtime : Runtime := {|
  JSON_parse := parse;
  JSON_stringify := stringify;
  handlebars_compile := compile
|}.

(** Sample example documents. *)
#[export] Instance examples : Examples := {|
  htmlExample := "<h1>{{title}}</h1>";
  cssExample := "h1 { color: white; }"
|}.

End Fragment.

(** A browser with nothing logged, shown, sent or stored. *)
Definition fresh_browser : Browser := mkBrowser [] [] [] ∅.

(** ** States reached by the handlers *)

(** What the effect of [Preview] leaves behind when compilation throws [e]. *)
Definition after_failed_compile (template : string) (e : JSError) (s : Session) : Session :=
  mkSession (app s) (loading s) template
    (mkBrowser (console (browser s) ++ [ConsoleWarn (LText compile_warning)]
                  ++ [ConsoleWarn (LError e)])
       (alerts (browser s)) (requests (browser s)) (localStorage (browser s)))
    (saver s).

(** What the data editor's [onChange] leaves behind when parsing throws. *)
Definition after_failed_parse (s : Session) : Session :=
  mkSession (app s) (loading s) (compiledHtml s)
    (mkBrowser (console (browser s) ++ [ConsoleWarn (LText "Error parsing JSON")])
       (alerts (browser s)) (requests (browser s)) (localStorage (browser s)))
    (saver s).

(** The request [publish] sends from the state [a]. *)
Definition publish_request (a : AppState) : Request :=
  mkRequest "https://ssfy.sh/chrisvxd/og-impact/publish" (html a) (css a)
            "application/json" (apiKey a).

(** The state after [publish] showed [msg], having logged [logged] and
    sent [sent]. *)
Definition after_publish (msg : string) (logged : list LogEntry) (sent : list Request)
    (s : Session) : Session :=
  mkSession (app s) (loading s) (compiledHtml s)
    (mkBrowser (console (browser s) ++ logged) (alerts (browser s) ++ [msg])
       (requests (browser s) ++ sent) (localStorage (browser s)))
    (saver s).

(** The session of the fragment runtime mounted at time 0 over an empty
    store. *)
Definition sample_session : Session :=
  @mount Fragment.runtime Fragment.examples 0 fresh_browser.

(** A session with a credential typed in. *)
Definition sample_keyed_session : Session :=
  @run Fragment.runtime [(10, TypeApiKey "secret")] sample_session.

(** ** What a session shows of itself *)





(** The store after the three writes of one save. *)
Definition stored `{Runtime} (a : SaveArgs) (store : gmap string string)
    : gmap string string :=
  <["params" := JSON_stringify (save_params a) 0]>
    (<["css" := save_css a]> (<["html" := save_html a]> store)).



(** Saves requested while a text is typed, a character every 900 ms. *)
Definition sample_typing : list (Z * SaveArgs) :=
  [(0, mkSave "a" "" default_params);
   (900, mkSave "ab" "" default_params);
   (1800, mkSave "abc" "" default_params);
   (2700, mkSave "abcd" "" default_params);
   (3600, mkSave "abcde" "" default_params);
   (4500, mkSave "abcdef" "" default_params);
   (5400, mkSave "abcdefg" "" default_params)].

(** A typing session: a keystroke every 800 ms, then a brace in the data
    editor. *)
Definition sample_edits : list (Z * Event) :=
  [(100, EditHtml "<p>"); (900, EditHtml "<p>{{"); (1700, EditHtml "<p>{{title");
   (2500, EditHtml "<p>{{title}}"); (3300, EditHtml "<p>{{title}}<");
   (4100, EditHtml "<p>{{title}}</p>"); (4900, EditCss "p"); (5700, EditCss "p {}");
   (6500, EditData "{")].

(** ** What the documents, the store and the network see *)

(** The three documents as they are on screen: what the persistence effect
    passes to [debouncedWriteStorage]. *)
Definition documents (s : Session) : SaveArgs :=
  mkSave (html (app s)) (css (app s)) (params (app s)).

(** The store holds the three fields of [a]. *)
Definition store_holds `{Runtime} (a : SaveArgs) (store : gmap string string) : Prop :=
  store !! "html" = Some (save_html a) /\
  store !! "css" = Some (save_css a) /\
  store !! "params" = Some (JSON_stringify (save_params a) 0).

(** The save is up to date at [latest], the time of the latest event: what
    is pending is the documents on screen, with a delay window that ends
    within 1000 ms; when nothing is pending the store holds them. *)
Definition save_up_to_date `{Runtime} (latest : Z) (s : Session) : Prop :=
  match saver s with
  | Some p => pending_args p = documents s /\ quiet_at p <= latest + 1000
  | None => store_holds (documents s) (localStorage (browser s))
  end.

(** The text in the data editor's state parses to the data object. *)
Definition data_consistent `{Runtime} (s : Session) : Prop :=
  JSON_parse (paramsJson (app s)) = inr (params (app s)).

(** What [Preview] displays for a template and a data object. *)
Definition displayed `{Runtime} (template : string) (d : JSValue) : string :=
  match handlebars_compile template d with
  | inr out => out
  | inl _ => template
  end.

(** What one attempt to compile logs. *)
Definition compile_log `{Runtime} (template : string) (d : JSValue) : list LogEntry :=
  match handlebars_compile template d with
  | inr _ => []
  | inl e => [ConsoleWarn (LText compile_warning); ConsoleWarn (LError e)]
  end.

(** A request as [publish] builds it, with a credential. *)
Definition request_well_formed (r : Request) : Prop :=
  req_url r = "https://ssfy.sh/chrisvxd/og-impact/publish" /\
  req_content_type r = "application/json" /\
  req_authorization r <> "".

Definition is_click (ev : Event) : bool :=
  match ev with
  | ClickPublish _ => true
  | _ => false
  end.

(** The number of clicks on the publish button among [evs]. *)
Definition clicks (evs : list (Z * Event)) : nat :=
  length (filter (fun tev => is_click (snd tev) = true) evs).

(** A session with [loading] set to [b]. *)
Definition with_loading (b : bool) (s : Session) : Session :=
  mkSession (app s) b (compiledHtml s) (browser s) (saver s).

(** A store written by a user who cleared every document. *)
Definition cleared_browser : Browser :=
  browser (snd (@write_snapshot Fragment.runtime (mkSave "" "" (JSNumber 0)) sample_session)).

(** A handler that fails. *)
Definition failing_handler : Eff unit :=
  fun s => (Throw (mkError "Error" "rejected"), s).

(** A browser with [entries] added to its console. *)
Definition logged (entries : list LogEntry) (b : Browser) : Browser :=
  mkBrowser (console b ++ entries) (alerts b) (requests b) (localStorage b).

(** ** Where console entries come from *)





(** * Properties *)

Ltac run_eff :=
  unfold Preview_init, Preview_effect, Preview_mount, onChangeData, publish,
    Button_onClick, axios_post, write_snapshot, writeStorage_value,
    writeStorage_text, persist_effect, debouncedWriteStorage, try_catch,
    lift_js, console_warn, console_log, emit, alert, setHtml, setCss,
    setParams, setParamsJson, setApiKey, setLoading, setCompiledHtml, modify,
    mbind, mret, Eff_bind, Eff_ret, with_app, with_browser, with_saver;
  cbn [fst snd app loading compiledHtml browser saver console alerts requests
       localStorage html css params paramsJson apiKey data].

Ltac split_session s :=
  let a := fresh "a" in
  let b := fresh "b" in
  destruct s as [a ? ? b ?]; destruct a, b.

(** The timer of the save leaves the state of [App], the console, the
    prompts and the requests as they are. *)
Lemma tick_frame `{Runtime} (now : Z) (s : Session) :
  app (snd (tick now s)) = app s /\
  console (browser (snd (tick now s))) = console (browser s) /\
  alerts (browser (snd (tick now s))) = alerts (browser s) /\
  requests (browser (snd (tick now s))) = requests (browser s).
Proof.
  unfold tick. destruct (expire now (saver s)) as [[[t a] |] st]; cbn; auto.
Qed.

(** ** The model at work *)

Example render_title :
  Fragment.compile "Hello, {{title}}!" (JSObject [("title", JSString "World")])
  = inr "Hello, World!".
Proof. reflexivity. Qed.

Example render_literal_text :
  Fragment.compile "no markers" (JSObject []) = inr "no markers".
Proof. reflexivity. Qed.

Example parse_printed_default :
  Fragment.parse (Fragment.stringify default_params 2) = inr default_params.
Proof. reflexivity. Qed.

Example mounted_preview :
  compiledHtml sample_session = "<h1>Hello, World!</h1>" /\
  console (browser sample_session) = [] /\
  (due_at <$> saver sample_session) = Some 1000.
Proof. vm_compute. auto. Qed.

(** The save pending since the mount is forced at 5000 ms, when the
    stylesheet reads "p"; the last two edits are still pending. *)
Example typing_reaches_store :
  let s := @run Fragment.runtime sample_edits sample_session in
  localStorage (browser s) !! "html" = Some "<p>{{title}}</p>" /\
  localStorage (browser s) !! "css" = Some "p" /\
  (save_css <$> (pending_args <$> saver s)) = Some "p {}" /\
  console (browser s) = [ConsoleWarn (LText "Error parsing JSON")].
Proof. vm_compute. auto. Qed.

(** ** The preview's fallback *)

(** C1, as the code has it.  When compiling the template throws, the effect
    of [Preview] completes normally, the displayed value becomes the raw
    template text (whatever was displayed before), and the fixed warning and
    the exception are logged; nothing else changes.  The initializer returns
    the raw template text in the same way. *)
Theorem Preview_failure_shows_raw_template `{Runtime}
    (template : string) (d : JSValue) (e : JSError) (s : Session) :
  handlebars_compile template d = inl e ->
  Preview_effect template d s = (Normal tt, after_failed_compile template e s) /\
  fst (Preview_init template d s) = Normal template /\
  console (browser (snd (Preview_init template d s))) =
    (console (browser s) ++ [ConsoleWarn (LText compile_warning); ConsoleWarn (LError e)])%list.
Proof.
  intros Hfail. run_eff. rewrite Hfail. cbn.
  unfold after_failed_compile. rewrite <- !app_assoc. auto.
Qed.

(** C1, a counterexample to the claim as worded.  With "OK" on display from a successful
    compilation, the malformed template does not leave "OK" in place: the
    raw template text replaces it. *)
Lemma Preview_failure_forgets_last_output :
  let s1 := snd (@Preview_effect Fragment.runtime "OK" (JSObject []) sample_session) in
  let s2 := snd (@Preview_effect Fragment.runtime "{{#if" (JSObject []) s1) in
  @handlebars_compile Fragment.runtime "OK" (JSObject []) = inr "OK" /\
  @handlebars_compile Fragment.runtime "{{#if" (JSObject []) = inl Fragment.parse_error /\
  compiledHtml s1 = "OK" /\
  compiledHtml s2 = "{{#if" /\
  compiledHtml s2 <> compiledHtml s1.
Proof. vm_compute. repeat split; try reflexivity. discriminate. Qed.

Lemma Preview_failure_shows_raw_template_witness :
  @Preview_effect Fragment.runtime "{{#if" (JSObject []) sample_session =
    (Normal tt, after_failed_compile "{{#if" Fragment.parse_error sample_session).
Proof.
  apply (@Preview_failure_shows_raw_template Fragment.runtime "{{#if" (JSObject [])
           Fragment.parse_error sample_session).
  reflexivity.
Defined.

(** ** Editing *)

(** C2, as the code has it.  The handler of a keystroke in the markup or
    stylesheet editor sets the document to exactly the text typed and does
    nothing else: no storage write and no debounced call happen in it.  The
    handler of the data editor sets the text and the data object together,
    and only when the text parses; otherwise both keep their values. *)
Theorem keystroke_updates_document `{Runtime} (text : string) (s : Session) :
  (handle (EditHtml text) s =
     (Normal tt, mkSession (mkApp text (css (app s)) (params (app s))
                              (paramsJson (app s)) (apiKey (app s)))
                   (loading s) (compiledHtml s) (browser s) (saver s))) /\
  (handle (EditCss text) s =
     (Normal tt, mkSession (mkApp (html (app s)) text (params (app s))
                              (paramsJson (app s)) (apiKey (app s)))
                   (loading s) (compiledHtml s) (browser s) (saver s))) /\
  (handle (EditData text) s =
     (Normal tt,
      match JSON_parse text with
      | inr v => mkSession (mkApp (html (app s)) (css (app s)) v text (apiKey (app s)))
                   (loading s) (compiledHtml s) (browser s) (saver s)
      | inl _ => after_failed_parse s
      end)).
Proof.
  cbn [handle]. run_eff. destruct (JSON_parse text); cbn; auto.
Qed.

(** C2, a counterexample to the claim as worded.  Typing an opening brace into the data editor
    fails to parse, and the data document's value stays the previous text. *)
Lemma data_keystroke_not_stored :
  let s := snd (@handle Fragment.runtime (EditData "{") sample_session) in
  @JSON_parse Fragment.runtime "{" = inl Fragment.syntax_error /\
  paramsJson (app s) = paramsJson (app sample_session) /\
  paramsJson (app s) <> "{".
Proof. vm_compute. repeat split; try reflexivity. discriminate. Qed.

(** C6.  When the text typed into the data editor does not parse, the
    handler completes normally, the data object and every other cell of the
    state are as before, nothing is shown to the user, and the only trace
    is one console warning. *)
Theorem failed_parse_keeps_data `{Runtime} (text : string) (e : JSError) (s : Session) :
  JSON_parse text = inl e ->
  onChangeData text s = (Normal tt, after_failed_parse s) /\
  params (app (after_failed_parse s)) = params (app s) /\
  alerts (browser (after_failed_parse s)) = alerts (browser s) /\
  (forall now,
     app (step now (EditData text) s) = app s /\
     alerts (browser (step now (EditData text) s)) = alerts (browser s)).
Proof.
  intros Hfail. repeat split.
  - run_eff. rewrite Hfail. reflexivity.
  - unfold step. cbn [deps_changed handle]. rewrite Hfail.
    run_eff. rewrite Hfail. cbn. apply tick_frame.
  - unfold step. cbn [deps_changed handle]. rewrite Hfail.
    run_eff. rewrite Hfail. cbn. apply tick_frame.
Qed.

Lemma failed_parse_keeps_data_witness :
  @onChangeData Fragment.runtime "{" sample_session =
    (Normal tt, after_failed_parse sample_session).
Proof.
  apply (@failed_parse_keeps_data Fragment.runtime "{" Fragment.syntax_error sample_session).
  reflexivity.
Defined.

(** ** Publishing *)

(** C3.  With an empty credential [publish] shows the missing-key prompt
    and returns: no request is sent, nothing is logged. *)
Theorem publish_without_credential (reply : HttpReply) (s : Session) :
  apiKey (app s) = "" ->
  publish reply s = (Normal tt, after_publish missing_key_message [] [] s) /\
  requests (browser (snd (publish reply s))) = requests (browser s).
Proof.
  intros Hkey. unfold publish. rewrite Hkey. cbn. run_eff.
  unfold after_publish. rewrite !app_nil_r. auto.
Qed.

Lemma publish_without_credential_witness :
  requests (browser (snd (publish (HttpResponse 200 JSNull) sample_session))) =
    requests (browser sample_session).
Proof.
  apply (publish_without_credential (HttpResponse 200 JSNull) sample_session).
  reflexivity.
Defined.

(** The [template] field is read where it stands among the fields. *)
Lemma lookup_template_field (before after : list (string * JSValue)) (v : JSValue) :
  Forall (fun field => fst field <> "template") before ->
  lookup_field "template" (before ++ ("template", v) :: after) = Some v.
Proof.
  induction before as [| [k v'] rest IH]; intros Hnone.
  - reflexivity.
  - inversion Hnone as [| field fields Hk Hrest]; subst. cbn in Hk.
    rewrite <- app_comm_cons. cbn [lookup_field].
    destruct (String.eqb_spec "template" k) as [Heq | _].
    + congruence.
    + apply IH, Hrest.
Qed.

(** C8.  With a credential, [publish] sends exactly one request.  When the
    answer has a status in 2xx and a body whose [template] field is the
    text [id], the user is shown "Save successful. Use template ID [id]."
    and nothing is logged.  When there is no answer, or the status is
    outside 2xx, the user is shown the fixed failure message, which carries
    neither the error nor an identifier, and the error goes to the console.
    In general the message of a success carries whatever the [template]
    field reads as, and every rejection is handled as a failure. *)
Theorem publish_outcomes (reply : HttpReply) (s : Session) :
  apiKey (app s) <> "" ->
  (forall status before id after,
     200 <= status < 300 ->
     Forall (fun field => fst field <> "template") before ->
     publish (HttpResponse status (JSObject (before ++ ("template", JSString id) :: after))) s =
       (Normal tt,
        after_publish ("Save successful. Use template ID " +:+ id +:+ ".")
          [] [publish_request (app s)] s)) /\
  (forall e,
     publish (NetworkFailure e) s =
       (Normal tt,
        after_publish publish_failed_message [ConsoleLog (LError e)]
          [publish_request (app s)] s)) /\
  (forall status body,
     ~ (200 <= status < 300) ->
     publish (HttpResponse status body) s =
       (Normal tt,
        after_publish publish_failed_message
          [ConsoleLog (LError (mkError "Error"
                                 ("Request failed with status code " +:+ pretty status)))]
          [publish_request (app s)] s)) /\
  (forall response id,
     axios_settle reply = inr response ->
     get_template (data response) = inr id ->
     publish reply s =
       (Normal tt,
        after_publish ("Save successful. Use template ID " +:+ to_text_opt id +:+ ".")
          [] [publish_request (app s)] s)) /\
  (forall e,
     axios_settle reply = inl e ->
     publish reply s =
       (Normal tt,
        after_publish publish_failed_message [ConsoleLog (LError e)]
          [publish_request (app s)] s)).
Proof.
  intros Hkey.
  assert (Htruthy : truthy_text (apiKey (app s)) = true).
  { unfold truthy_text. destruct (String.eqb_spec (apiKey (app s)) ""); [contradiction | reflexivity]. }
  assert (Hsuccess : forall r response id,
            axios_settle r = inr response ->
            get_template (data response) = inr id ->
            publish r s =
              (Normal tt,
               after_publish ("Save successful. Use template ID " +:+ to_text_opt id +:+ ".")
                 [] [publish_request (app s)] s)).
  { intros r response id Hok Hid. unfold publish. rewrite Htruthy. cbn [negb].
    run_eff. rewrite Hok. cbn. rewrite Hid. cbn.
    unfold after_publish, publish_request. rewrite app_nil_r. reflexivity. }
  assert (Hfailure : forall r e,
            axios_settle r = inl e ->
            publish r s =
              (Normal tt,
               after_publish publish_failed_message [ConsoleLog (LError e)]
                 [publish_request (app s)] s)).
  { intros r e Hfail. unfold publish. rewrite Htruthy. cbn [negb].
    run_eff. rewrite Hfail. cbn.
    unfold after_publish, publish_request. reflexivity. }
  split; [| split; [| split; [| split]]].
  - intros status before id after [Hlow Hhigh] Hnone.
    apply (Hsuccess _ (mkResponse (JSObject (before ++ ("template", JSString id) :: after)))
                    (Some (JSString id))).
    + cbn. destruct (Z.leb_spec 200 status); [| lia].
      destruct (Z.ltb_spec status 300); [reflexivity | lia].
    + cbn. rewrite lookup_template_field by exact Hnone. reflexivity.
  - intros e. apply Hfailure. reflexivity.
  - intros status body Hout. apply Hfailure. cbn.
    destruct (Z.leb_spec 200 status); destruct (Z.ltb_spec status 300);
      cbn; try reflexivity. lia.
  - apply Hsuccess.
  - apply Hfailure.
Qed.

(** C10.  [publish] completes normally whatever the credential, the
    documents and the answer of the network are, so [Button]'s handler
    reaches its last statement and leaves [loading] reset. *)
Theorem publish_never_throws (reply : HttpReply) (s : Session) :
  fst (publish reply s) = Normal tt /\
  fst (Button_onClick (publish reply) s) = Normal tt /\
  loading (snd (Button_onClick (publish reply) s)) = false.
Proof.
  assert (Hpub : forall s0, fst (publish reply s0) = Normal tt).
  { intros s0. unfold publish.
    destruct (truthy_text (apiKey (app s0))); cbn [negb]; [| reflexivity].
    run_eff. destruct (axios_settle reply) as [e | response]; cbn; [reflexivity |].
    destruct (get_template (data response)); reflexivity. }
  split; [apply Hpub |].
  unfold Button_onClick, setLoading, modify, mbind, Eff_bind.
  match goal with |- context [publish reply ?s0] =>
    specialize (Hpub s0); destruct (publish reply s0) as [[[] | e] s1] end;
    cbn in *; [auto | discriminate].
Qed.

(** ** The debounce scheduler *)

Lemma last_time_cons {A : Type} (t0 t : Z) (a : A) (rest : list (Z * A)) :
  last_time t0 ((t, a) :: rest) = last_time t rest.
Proof.
  unfold last_time. destruct rest as [| q rest]; [reflexivity |].
  rewrite last_cons_cons. destruct (last (q :: rest)) eqn:Hlast; [reflexivity |].
  apply last_None in Hlast. discriminate.
Qed.

Lemma last_args_cons {A : Type} (a0 : A) (t : Z) (a : A) (rest : list (Z * A)) :
  last_args a0 ((t, a) :: rest) = last_args a rest.
Proof.
  unfold last_args. destruct rest as [| q rest]; [reflexivity |].
  rewrite last_cons_cons. destruct (last (q :: rest)) eqn:Hlast; [reflexivity |].
  apply last_None in Hlast. discriminate.
Qed.

Lemma last_time_ge {A : Type} (calls : list (Z * A)) :
  forall prev, chronological prev calls -> prev <= last_time prev calls.
Proof.
  induction calls as [| [t a] rest IH]; intros prev Hchron.
  - unfold last_time. cbn. lia.
  - destruct Hchron as [Hle Hrest]. rewrite last_time_cons.
    specialize (IH t Hrest). lia.
Qed.

(** A call made while another is pending keeps the ceiling of the burst. *)
Lemma schedule_keeps_ceiling {A : Type} (cfg : DebounceConfig) (now : Z) (a : A)
    (p : Pending A) :
  schedule cfg now a (Some p) = Some (mkPending a (now + delay cfg) (ceiling p)).
Proof. reflexivity. Qed.

(** Calls that keep arriving inside the delay window do not postpone the
    pending call beyond the ceiling [c]: it runs at [c]. *)
Lemma ceiling_forces_run {A : Type} (cfg : DebounceConfig) (c : Z)
    (calls : list (Z * A)) :
  forall (prev : Z) (p : Pending A),
    quiet_at p = prev + delay cfg ->
    ceiling p = Some c ->
    prev < c ->
    spaced_within (delay cfg) prev calls ->
    c <= last_time prev calls ->
    exists a later, fst (run_calls cfg calls (Some p)) = (c, a) :: later.
Proof.
  induction calls as [| [t a] rest IH]; intros prev p Hquiet Hceil Hprev Hspaced Hlast.
  - unfold last_time in Hlast. cbn in Hlast. lia.
  - destruct Hspaced as [Hgap Hrest]. rewrite last_time_cons in Hlast.
    cbn [run_calls]. unfold expire, due_at. rewrite Hceil, Hquiet.
    destruct (Z.leb_spec (Z.min (prev + delay cfg) c) t) as [Hdue | Hnot].
    + destruct (run_calls cfg rest (schedule cfg t a None)) as [later final].
      exists (pending_args p), later. cbn. f_equal. f_equal. lia.
    + rewrite schedule_keeps_ceiling.
      destruct (IH t (mkPending a (t + delay cfg) (ceiling p))) as (a' & later & Hrun);
        cbn; auto; try lia.
      destruct (run_calls cfg rest _) as [later' final]. cbn in *.
      exists a', later. exact Hrun.
Qed.

(** An idle instance with [maxWait = m], called at [t0] and then again and
    again less than [delay] apart for longer than [m]: the first execution
    is the one forced at [t0 + m]. *)
Lemma first_run_at_ceiling {A : Type} (cfg : DebounceConfig) (m : Z)
    (t0 : Z) (a0 : A) (rest : list (Z * A)) :
  maxWait cfg = Some m ->
  0 < m ->
  spaced_within (delay cfg) t0 rest ->
  t0 + m < last_time t0 rest ->
  exists a later,
    fst (run_calls cfg ((t0, a0) :: rest) None) = (t0 + m, a) :: later.
Proof.
  intros Hmax Hpos Hspaced Hlast.
  cbn [run_calls expire]. unfold schedule. rewrite Hmax. cbn [fmap option_fmap option_map].
  destruct (ceiling_forces_run cfg (t0 + m) rest t0
              (mkPending a0 (t0 + delay cfg) (Some (t0 + m)))) as (a & later & Hrun);
    cbn; auto; try lia.
  destruct (run_calls cfg rest _) as [later' final]. cbn in *.
  exists a, later. exact Hrun.
Qed.

(** When the pending save is due, the timer makes its three writes and
    leaves nothing pending. *)
Lemma tick_writes `{Runtime} (now : Z) (s : Session) (p : Pending SaveArgs) :
  saver s = Some p ->
  due_at p <= now ->
  localStorage (browser (snd (tick now s))) =
    stored (pending_args p) (localStorage (browser s)) /\
  saver (snd (tick now s)) = None.
Proof.
  intros Hpending Hdue. unfold tick, expire. rewrite Hpending.
  destruct (Z.leb_spec (due_at p) now) as [_ | Hlate]; [| lia].
  cbn. auto.
Qed.

(** C4.  [debouncedWriteStorage] called at [t0] and then again and again
    less than 1000 ms apart, for longer than 5000 ms: the first execution
    happens exactly 5000 ms after the first call, so within [maxWait] of it.
    A call made while another is pending keeps the ceiling of the burst,
    and the execution, when the timer finds it due, writes the three keys
    of the store. *)
Theorem max_wait_forces_execution `{Runtime} (t0 : Z) (a0 : SaveArgs)
    (rest : list (Z * SaveArgs)) :
  spaced_within 1000 t0 rest ->
  t0 + 5000 < last_time t0 rest ->
  (exists a later,
     fst (run_calls debouncedWriteStorage_config ((t0, a0) :: rest) None)
     = (t0 + 5000, a) :: later) /\
  (forall now a' (p : Pending SaveArgs), exists p',
     schedule debouncedWriteStorage_config now a' (Some p) = Some p' /\
     ceiling p' = ceiling p) /\
  (forall now s p,
     saver s = Some p -> due_at p <= now ->
     localStorage (browser (snd (tick now s))) =
       stored (pending_args p) (localStorage (browser s))).
Proof.
  intros Hspaced Hlast. repeat split.
  - apply (first_run_at_ceiling debouncedWriteStorage_config 5000);
      [reflexivity | lia | exact Hspaced | exact Hlast].
  - intros now a' p. rewrite schedule_keeps_ceiling. eexists. split; reflexivity.
  - intros now s p Hpending Hdue. apply (tick_writes now s p Hpending Hdue).
Qed.

Lemma max_wait_forces_execution_witness :
  exists a later,
    fst (run_calls debouncedWriteStorage_config sample_typing None)
    = (5000, a) :: later.
Proof.
  apply (@max_wait_forces_execution Fragment.runtime 0
           (mkSave "a" "" default_params) (tail sample_typing)).
  - cbn. lia.
  - vm_compute. reflexivity.
Defined.

(** While calls stay inside one delay window that started at [t0], nothing
    runs, and what is pending is the last call. *)
Lemma quiet_burst_pending {A : Type} (cfg : DebounceConfig) (t0 : Z)
    (calls : list (Z * A)) :
  forall (prev : Z) (p : Pending A),
    quiet_at p = prev + delay cfg ->
    t0 <= prev ->
    match ceiling p with Some c => t0 + delay cfg <= c | None => True end ->
    chronological prev calls ->
    last_time prev calls < t0 + delay cfg ->
    run_calls cfg calls (Some p) =
      ([], Some (mkPending (last_args (pending_args p) calls)
                   (last_time prev calls + delay cfg) (ceiling p))).
Proof.
  induction calls as [| [t a] rest IH]; intros prev p Hquiet Hfrom Hceil Hchron Hlast.
  - destruct p as [args q c]. cbn in *. subst q. reflexivity.
  - destruct Hchron as [Hle Hrest]. rewrite last_time_cons in Hlast.
    pose proof (last_time_ge rest t Hrest) as Hmono.
    cbn [run_calls]. unfold expire, due_at. rewrite Hquiet.
    assert (Hnot : Z.leb (match ceiling p with
                          | Some c => Z.min (prev + delay cfg) c
                          | None => prev + delay cfg
                          end) t = false).
    { apply Z.leb_gt. destruct (ceiling p); lia. }
    rewrite Hnot, schedule_keeps_ceiling.
    rewrite (IH t (mkPending a (t + delay cfg) (ceiling p))); cbn; auto; try lia.
    rewrite last_time_cons, last_args_cons. reflexivity.
Qed.

(** C5.  One or more calls to an idle instance within a window shorter than
    its delay, observed once the delay has passed after the last of them:
    exactly one execution, with the arguments of the last call. *)
Theorem burst_runs_once_with_last_args {A : Type} (cfg : DebounceConfig)
    (t0 : Z) (a0 : A) (rest : list (Z * A)) (until : Z) :
  match maxWait cfg with Some m => delay cfg <= m | None => True end ->
  chronological t0 rest ->
  last_time t0 rest - t0 < delay cfg ->
  last_time t0 rest + delay cfg <= until ->
  exists t,
    executions cfg ((t0, a0) :: rest) until = [(t, last_args a0 rest)] /\
    last_time t0 rest < t <= last_time t0 rest + delay cfg.
Proof.
  intros Hmax Hchron Hwindow Huntil.
  pose proof (last_time_ge rest t0 Hchron) as Hmono.
  unfold executions. cbn [run_calls expire]. unfold schedule.
  rewrite (quiet_burst_pending cfg t0 rest t0
             (mkPending a0 (t0 + delay cfg) ((fun m => t0 + m) <$> maxWait cfg)));
    cbn [quiet_at ceiling pending_args]; auto; try lia.
  2: { destruct (maxWait cfg); cbn; [lia | exact I]. }
  unfold expire, due_at. cbn [quiet_at ceiling pending_args].
  destruct (maxWait cfg) as [m |]; cbn [fmap option_fmap option_map].
  - destruct (Z.leb_spec (Z.min (last_time t0 rest + delay cfg) (t0 + m)) until) as [Hdue | Hnot];
      [| lia].
    cbn. eexists. split; [reflexivity | lia].
  - destruct (Z.leb_spec (last_time t0 rest + delay cfg) until) as [Hdue | Hnot]; [| lia].
    cbn. eexists. split; [reflexivity | lia].
Qed.

Lemma burst_runs_once_with_last_args_witness :
  exists t,
    executions debouncedWriteStorage_config
      [(0, "a"); (300, "ab"); (600, "abc"); (900, "abcd")] 2000
    = [(t, "abcd")] /\ 900 < t <= 1900.
Proof.
  apply (burst_runs_once_with_last_args debouncedWriteStorage_config 0 "a"
           [(300, "ab"); (600, "abc"); (900, "abcd")] 2000).
  - cbn. lia.
  - cbn. lia.
  - vm_compute. reflexivity.
  - vm_compute. discriminate.
Defined.

Lemma publish_outcomes_witness :
  publish (HttpResponse 200 (JSObject [("ok", JSBool true); ("template", JSString "tpl_7")]))
    sample_keyed_session =
    (Normal tt,
     after_publish "Save successful. Use template ID tpl_7." []
       [publish_request (app sample_keyed_session)] sample_keyed_session) /\
  publish (HttpResponse 401 JSNull) sample_keyed_session =
    (Normal tt,
     after_publish publish_failed_message
       [ConsoleLog (LError (mkError "Error" "Request failed with status code 401"))]
       [publish_request (app sample_keyed_session)] sample_keyed_session).
Proof.
  assert (Hkey : apiKey (app sample_keyed_session) <> "") by (vm_compute; discriminate).
  destruct (publish_outcomes (HttpResponse 401 JSNull) sample_keyed_session Hkey)
    as (Hsuccess & _ & Hstatus & _ & _).
  split.
  - apply (Hsuccess 200 [("ok", JSBool true)] "tpl_7" []).
    + lia.
    + repeat constructor. discriminate.
  - apply (Hstatus 401 JSNull). lia.
Defined.

(** ** Persistence *)

Lemma write_snapshot_store `{Runtime} (a : SaveArgs) (s : Session) :
  write_snapshot a s =
    (Normal tt,
     mkSession (app s) (loading s) (compiledHtml s)
       (mkBrowser (console (browser s)) (alerts (browser s)) (requests (browser s))
          (stored a (localStorage (browser s))))
       (saver s)).
Proof. reflexivity. Qed.

(** C7.  After a save, [load] returns the three saved fields, each as it
    was saved.  A key that is absent from the store is read as absent and
    the initial state takes the built-in default for that field alone,
    whatever the other keys hold; a field that was read, and is not empty,
    is the initial value of its document.  With only [html] in the store,
    [load] returns it and neither of the other two. *)
Theorem load_after_save `{Runtime} `{Examples} (a : SaveArgs) (s : Session) :
  JSON_parse (JSON_stringify (save_params a) 0) = inr (save_params a) ->
  load (browser (snd (write_snapshot a s))) =
    mkSnapshot (Some (save_html a)) (Some (save_css a)) (Some (save_params a)) /\
  (forall b,
     (localStorage b !! "html" = None ->
        storedHtml (load b) = None /\ html (App_init b) = htmlExample) /\
     (localStorage b !! "css" = None ->
        storedCss (load b) = None /\ css (App_init b) = cssExample) /\
     (localStorage b !! "params" = None ->
        storedParams (load b) = None /\ params (App_init b) = default_params)) /\
  (forall b text,
     (storedHtml (load b) = Some text -> text <> "" -> html (App_init b) = text) /\
     (storedCss (load b) = Some text -> text <> "" -> css (App_init b) = text)) /\
  (forall b v,
     storedParams (load b) = Some v -> truthy v = true -> params (App_init b) = v) /\
  (forall b text,
     localStorage b = {[ "html" := text ]} ->
     load b = mkSnapshot (Some text) None None).
Proof.
  intros Hround.
  assert (Htext : forall text dflt, text <> "" -> or_default_text (Some text) dflt = text).
  { intros text dflt Hne. unfold or_default_text, truthy_text.
    destruct (String.eqb_spec text ""); [contradiction | reflexivity]. }
  rewrite write_snapshot_store. cbn [snd browser].
  unfold App_init, load, useLocalStorage_text, useLocalStorage_value, stored.
  cbn [localStorage html css params storedHtml storedCss storedParams].
  split; [| split; [| split; [| split]]].
  - rewrite lookup_insert_eq, Hround.
    rewrite (lookup_insert_ne _ "params" "css") by discriminate.
    rewrite (lookup_insert_ne _ "params" "html") by discriminate.
    rewrite lookup_insert_eq.
    rewrite (lookup_insert_ne _ "css" "html") by discriminate.
    rewrite lookup_insert_eq. reflexivity.
  - intros b. repeat split; try assumption;
      match goal with Hnone : _ !! _ = None |- _ => rewrite Hnone end; reflexivity.
  - intros b text. split; intros Hread Hne; rewrite Hread; apply Htext, Hne.
  - intros b v Hread Htruthy. rewrite Hread. cbn. rewrite Htruthy. reflexivity.
  - intros b text Hstore. rewrite Hstore.
    rewrite lookup_singleton_eq.
    rewrite !lookup_singleton_ne by discriminate. reflexivity.
Qed.

Lemma load_after_save_witness :
  @load Fragment.runtime
    (browser (snd (@write_snapshot Fragment.runtime
                     (mkSave "<p>{{title}}</p>" "p {}" default_params) sample_session)))
  = mkSnapshot (Some "<p>{{title}}</p>") (Some "p {}") (Some default_params).
Proof.
  apply (@load_after_save Fragment.runtime Fragment.examples
           (mkSave "<p>{{title}}</p>" "p {}" default_params) sample_session).
  vm_compute. reflexivity.
Defined.

(** The default also replaces a field that is in the store when it is
    empty: a saved empty markup or stylesheet, or the data object 0, is
    read back by [load] as saved, and is not the initial value. *)
Remark empty_documents_read_as_defaults :
  let saved := mkSave "" "" (JSNumber 0) in
  let b := browser (snd (@write_snapshot Fragment.runtime saved sample_session)) in
  let loaded := @App_init Fragment.runtime Fragment.examples b in
  @load Fragment.runtime b = mkSnapshot (Some "") (Some "") (Some (JSNumber 0)) /\
  html loaded = @htmlExample Fragment.examples /\
  css loaded = @cssExample Fragment.examples /\
  params loaded = default_params.
Proof. vm_compute. repeat split; reflexivity. Qed.

(** ** The credential *)





(** A handler does not touch the store. *)
Lemma handle_store `{Runtime} (ev : Event) (s : Session) :
  localStorage (browser (snd (handle ev s))) = localStorage (browser s).
Proof.
  destruct ev; cbn [handle]; run_eff;
    repeat match goal with
      | |- context [JSON_parse ?x] => destruct (JSON_parse x); cbn
      | |- context [truthy_text ?x] => destruct (truthy_text x); cbn
      | |- context [axios_settle ?x] => destruct (axios_settle x); cbn
      | |- context [get_template ?x] => destruct (get_template x); cbn
      end;
    reflexivity.
Qed.

(** One event drives the scheduler of the save as a call stream does: the
    timer first and then, when a document changed, one call with the
    documents as they are after the event. *)
Lemma step_saver `{Runtime} (now : Z) (ev : Event) (s : Session) :
  saver (step now ev s) =
    let st := snd (expire now (saver s)) in
    let a := app (step now ev s) in
    if deps_changed ev (app s)
    then schedule debouncedWriteStorage_config now (mkSave (html a) (css a) (params a)) st
    else st.
Proof.
  split_session s. unfold step, tick, expire. cbn [saver app].
  match goal with |- context [match ?sv with Some _ => _ | None => _ end] =>
    destruct sv as [p |]; [destruct (Z.leb (due_at p) now) |] end;
    cbn [snd write_snapshot];
    destruct ev; cbn [deps_changed handle]; run_eff; cbn;
    repeat match goal with
      | |- context [JSON_parse ?x] => destruct (JSON_parse x); cbn
      | |- context [negb (String.eqb ?x ?y)] => destruct (String.eqb x y); cbn
      | |- context [negb (Object_is ?x ?y)] => destruct (Object_is x y); cbn
      | |- context [truthy_text ?x] => destruct (truthy_text x); cbn
      | |- context [axios_settle ?x] => destruct (axios_settle x); cbn
      | |- context [get_template ?x] => destruct (get_template x); cbn
      end;
    reflexivity.
Qed.









(** * Further properties of the components *)

Ltac case_platform :=
  repeat match goal with
    | |- context [JSON_parse ?x] => destruct (JSON_parse x) eqn:?; cbn
    | |- context [handlebars_compile ?x ?y] => destruct (handlebars_compile x y) eqn:?; cbn
    | |- context [negb (String.eqb ?x ?y)] => destruct (String.eqb x y) eqn:?; cbn
    | |- context [negb (Object_is ?x ?y)] => destruct (Object_is x y) eqn:?; cbn
    | |- context [truthy_text ?x] => destruct (truthy_text x) eqn:?; cbn
    | |- context [axios_settle ?x] => destruct (axios_settle x) eqn:?; cbn
    | |- context [get_template ?x] => destruct (get_template x) eqn:?; cbn
    end.

(** ** Handlers *)

(** X1.  No handler throws: every event is handled to a normal
    completion, whatever the text typed, the credential and the answer of
    the network are. *)
Theorem handlers_complete `{Runtime} (ev : Event) (s : Session) :
  fst (handle ev s) = Normal tt.
Proof.
  destruct ev; cbn [handle]; run_eff; case_platform; reflexivity.
Qed.

Lemma handle_saver `{Runtime} (ev : Event) (s : Session) :
  saver (snd (handle ev s)) = saver s.
Proof.
  destruct ev; cbn [handle]; run_eff; case_platform; reflexivity.
Qed.

Lemma step_app `{Runtime} (now : Z) (ev : Event) (s : Session) :
  app (step now ev s) = app (snd (handle ev (snd (tick now s)))).
Proof. unfold step. destruct (deps_changed _ _); reflexivity. Qed.

(** A click on the publish button changes the browser and nothing else. *)
Lemma click_frame `{Runtime} (reply : HttpReply) (s : Session) :
  app (snd (handle (ClickPublish reply) s)) = app s /\
  loading (snd (handle (ClickPublish reply) s)) = false /\
  compiledHtml (snd (handle (ClickPublish reply) s)) = compiledHtml s.
Proof.
  cbn [handle]. run_eff. case_platform; auto.
Qed.

Lemma handle_data_consistent `{Runtime} (ev : Event) (s : Session) :
  data_consistent s -> data_consistent (snd (handle ev s)).
Proof.
  intros Hs.
  destruct ev as [text | text | text | text | reply]; cbn [handle].
  - exact Hs.
  - exact Hs.
  - destruct (JSON_parse text) as [e | v] eqn:Hparse;
      unfold data_consistent; run_eff; rewrite Hparse; cbn; [exact Hs | exact Hparse].
  - exact Hs.
  - unfold data_consistent. destruct (click_frame reply s) as [Happ _].
    cbn [handle] in Happ. rewrite Happ. exact Hs.
Qed.

(** ** [Preview] *)

(** The effect of [Preview], in one equation. *)
Lemma Preview_effect_eq `{Runtime} (template : string) (d : JSValue) (s : Session) :
  Preview_effect template d s =
    (Normal tt,
     mkSession (app s) (loading s) (displayed template d)
       (logged (compile_log template d) (browser s)) (saver s)).
Proof.
  unfold displayed, compile_log, logged. run_eff.
  destruct (handlebars_compile template d) as [e | out]; cbn.
  - rewrite <- app_assoc. reflexivity.
  - rewrite app_nil_r. destruct s as [a l c b sv]. destruct b. reflexivity.
Qed.

(** The initializer of [Preview], in one equation. *)
Lemma Preview_init_eq `{Runtime} (template : string) (d : JSValue) (s : Session) :
  Preview_init template d s =
    (Normal (displayed template d),
     mkSession (app s) (loading s) (compiledHtml s)
       (logged (compile_log template d) (browser s)) (saver s)).
Proof.
  unfold displayed, compile_log, logged. run_eff.
  destruct (handlebars_compile template d) as [e | out]; cbn.
  - rewrite <- app_assoc. reflexivity.
  - rewrite app_nil_r. destruct s as [a l c b sv]. destruct b. reflexivity.
Qed.

(** The first render of [Preview], in one equation. *)
Lemma Preview_mount_eq `{Runtime} (template : string) (d : JSValue) (s : Session) :
  Preview_mount template d s =
    (Normal tt,
     mkSession (app s) (loading s) (displayed template d)
       (logged (compile_log template d ++ compile_log template d) (browser s))
       (saver s)).
Proof.
  unfold Preview_mount. unfold mbind at 1 2. unfold Eff_bind.
  rewrite Preview_init_eq. unfold setCompiledHtml, modify. cbn [app loading browser saver].
  rewrite Preview_effect_eq. unfold logged. cbn. rewrite <- app_assoc. reflexivity.
Qed.

(** X3.  The effect of [Preview] never throws and leaves everything but
    the displayed value and the console as it is.  The value it displays is
    the compiled output when compilation succeeds and the raw template
    otherwise, so it depends on the template and the data alone, not on
    what was displayed before; a successful compilation logs nothing. *)
Theorem Preview_effect_result `{Runtime} (template : string) (d : JSValue) (s : Session) :
  Preview_effect template d s =
    (Normal tt,
     mkSession (app s) (loading s) (displayed template d)
       (logged (compile_log template d) (browser s)) (saver s)) /\
  (forall out, handlebars_compile template d = inr out ->
     compiledHtml (snd (Preview_effect template d s)) = out /\
     console (browser (snd (Preview_effect template d s))) = console (browser s)) /\
  (forall s', compiledHtml (snd (Preview_effect template d s')) =
              compiledHtml (snd (Preview_effect template d s))).
Proof.
  pose proof (Preview_effect_eq template d) as Hresult.
  split; [apply Hresult |]. split.
  - intros out Hout. rewrite Hresult. cbn. unfold displayed, compile_log.
    rewrite Hout. rewrite app_nil_r. auto.
  - intros s'. rewrite !Hresult. reflexivity.
Qed.

Lemma Preview_effect_result_witness :
  compiledHtml (snd (@Preview_effect Fragment.runtime "<b>{{title}}</b>"
                       default_params sample_session)) = "<b>Hello, World!</b>".
Proof.
  apply (proj1 (proj2 (@Preview_effect_result Fragment.runtime "<b>{{title}}</b>"
                         default_params sample_session))).
  reflexivity.
Defined.

(** X4.  The first render of [Preview] compiles twice, in the initializer
    of the state and in the effect that runs on mount: it displays what the
    effect alone would display and, when the template fails to compile,
    logs the warning and the exception twice. *)
Theorem Preview_mount_result `{Runtime} (template : string) (d : JSValue) (s : Session) :
  Preview_mount template d s =
    (Normal tt,
     mkSession (app s) (loading s) (displayed template d)
       (logged (compile_log template d ++ compile_log template d) (browser s))
       (saver s)) /\
  (forall e, handlebars_compile template d = inl e ->
     console (browser (snd (Preview_mount template d s))) =
       (console (browser s)
          ++ [ConsoleWarn (LText compile_warning); ConsoleWarn (LError e);
              ConsoleWarn (LText compile_warning); ConsoleWarn (LError e)])%list).
Proof.
  pose proof (Preview_mount_eq template d s) as Hresult.
  split; [exact Hresult |].
  intros e He. rewrite Hresult. unfold logged, compile_log. cbn. rewrite He. reflexivity.
Qed.

Lemma Preview_mount_result_witness :
  console (browser (snd (@Preview_mount Fragment.runtime "{{#if" default_params sample_session)))
  = (console (browser sample_session)
       ++ [ConsoleWarn (LText compile_warning); ConsoleWarn (LError Fragment.parse_error);
           ConsoleWarn (LText compile_warning); ConsoleWarn (LError Fragment.parse_error)])%list.
Proof.
  apply (proj2 (@Preview_mount_result Fragment.runtime "{{#if" default_params sample_session)).
  reflexivity.
Defined.

(** The first render: the state read from the store, the preview of the
    initial documents, and a save of them pending. *)
Lemma mount_result `{Runtime} `{Examples} (now : Z) (b : Browser) :
  mount now b =
    let a := App_init b in
    mkSession a false (displayed (html a) (params a))
      (logged (compile_log (html a) (params a) ++ compile_log (html a) (params a)) b)
      (Some (mkPending (mkSave (html a) (css a) (params a)) (now + 1000) (Some (now + 5000)))).
Proof.
  unfold mount. cbn zeta. unfold mbind, Eff_bind.
  rewrite Preview_mount_eq. reflexivity.
Qed.

(** X2.  The text held for the data editor always parses to the data
    object in use: every event keeps this, and the first render has it as
    soon as the platform parses what it printed for the initial object. *)
Theorem data_text_parses_to_data `{Runtime} `{Examples} (evs : list (Z * Event)) :
  (forall s, data_consistent s -> data_consistent (run evs s)) /\
  (forall now b,
     JSON_parse (JSON_stringify (params (App_init b)) 2) = inr (params (App_init b)) ->
     data_consistent (run evs (mount now b))).
Proof.
  assert (Hrun : forall s, data_consistent s -> data_consistent (run evs s)).
  { induction evs as [| [t ev] rest IH]; intros s Hs; cbn [run]; [exact Hs |].
    apply IH. unfold data_consistent. rewrite step_app.
    apply handle_data_consistent. unfold data_consistent.
    destruct (tick_frame t s) as [Happ _]. rewrite Happ. exact Hs. }
  split; [exact Hrun |].
  intros now b Hprint. apply Hrun. unfold data_consistent.
  rewrite mount_result. exact Hprint.
Qed.

Lemma data_text_parses_to_data_witness :
  @data_consistent Fragment.runtime (@run Fragment.runtime sample_edits sample_session).
Proof.
  apply (proj1 (@data_text_parses_to_data Fragment.runtime Fragment.examples sample_edits)).
  vm_compute. reflexivity.
Defined.

(** ** The save follows the documents *)

Lemma Object_is_eq (old fresh : JSValue) : Object_is old fresh = true -> old = fresh.
Proof.
  destruct old, fresh; cbn; try discriminate; intros Heq.
  - reflexivity.
  - apply Bool.eqb_prop in Heq. congruence.
  - apply Z.eqb_eq in Heq. congruence.
  - apply String.eqb_eq in Heq. congruence.
Qed.

(** An event that changes no dependency of the persistence effect leaves
    the three documents as they are. *)
Lemma unchanged_documents `{Runtime} (ev : Event) (s : Session) :
  deps_changed ev (app s) = false -> documents (snd (handle ev s)) = documents s.
Proof.
  destruct ev as [text | text | text | text | reply]; cbn [deps_changed handle]; intros Hdeps.
  - apply Bool.negb_false_iff, String.eqb_eq in Hdeps. unfold documents. run_eff.
    rewrite Hdeps. reflexivity.
  - apply Bool.negb_false_iff, String.eqb_eq in Hdeps. unfold documents. run_eff.
    rewrite Hdeps. reflexivity.
  - unfold documents. run_eff.
    destruct (JSON_parse text) as [e | v]; cbn; [reflexivity |].
    apply Bool.negb_false_iff, Object_is_eq in Hdeps. rewrite Hdeps. reflexivity.
  - reflexivity.
  - unfold documents. destruct (click_frame reply s) as [Happ _].
    cbn [handle] in Happ. rewrite Happ. reflexivity.
Qed.

Lemma stored_holds `{Runtime} (a : SaveArgs) (store : gmap string string) :
  store_holds a (stored a store).
Proof.
  unfold store_holds, stored. repeat split.
  - rewrite lookup_insert_ne by discriminate. rewrite lookup_insert_ne by discriminate.
    apply lookup_insert_eq.
  - rewrite lookup_insert_ne by discriminate. apply lookup_insert_eq.
  - apply lookup_insert_eq.
Qed.

(** The timer keeps the save up to date: a save that runs writes the
    documents on screen. *)
Lemma tick_up_to_date `{Runtime} (latest now : Z) (s : Session) :
  latest <= now -> save_up_to_date latest s -> save_up_to_date now (snd (tick now s)).
Proof.
  intros Hlater Hinv. unfold save_up_to_date in *. unfold tick, expire.
  destruct (saver s) as [p |] eqn:Hsaver.
  - destruct Hinv as [Hargs Hquiet].
    destruct (Z.leb (due_at p) now).
    + rewrite write_snapshot_store. cbn. rewrite Hargs. apply stored_holds.
    + cbn. rewrite Hsaver. split; [exact Hargs | lia].
  - cbn. rewrite Hsaver. exact Hinv.
Qed.

Lemma step_up_to_date `{Runtime} (latest now : Z) (ev : Event) (s : Session) :
  latest <= now -> save_up_to_date latest s -> save_up_to_date now (step now ev s).
Proof.
  intros Hlater Hinv. pose proof (tick_up_to_date latest now s Hlater Hinv) as Hticked.
  unfold step. set (s1 := snd (tick now s)) in *.
  pose proof (handle_saver ev s1) as Hsaver.
  pose proof (handle_store ev s1) as Hstore.
  destruct (deps_changed ev (app s1)) eqn:Hdeps.
  - unfold save_up_to_date. unfold persist_effect, debouncedWriteStorage, modify, with_saver.
    cbn [snd saver]. unfold schedule.
    destruct (saver (snd (handle ev s1))); cbn; split; try reflexivity; lia.
  - pose proof (unchanged_documents ev s1 Hdeps) as Hdocs.
    unfold save_up_to_date in *. rewrite Hsaver, Hstore, Hdocs. exact Hticked.
Qed.

Lemma run_up_to_date `{Runtime} (evs : list (Z * Event)) :
  forall (latest : Z) (s : Session),
    chronological latest evs ->
    save_up_to_date latest s ->
    save_up_to_date (last_time latest evs) (run evs s).
Proof.
  induction evs as [| [t ev] rest IH]; intros latest s Hchron Hinv.
  - exact Hinv.
  - destruct Hchron as [Hle Hrest]. rewrite last_time_cons. cbn [run].
    apply IH; [exact Hrest |]. apply (step_up_to_date latest); assumption.
Qed.

(** X5.  Through any events in time order, the pending save always carries
    the three documents as they are on screen and its delay window ends
    within 1000 ms of the latest event; when no save is pending, the store
    already holds the documents on screen. *)
Theorem pending_save_is_current `{Runtime} (latest : Z) (s : Session)
    (evs : list (Z * Event)) :
  chronological latest evs ->
  save_up_to_date latest s ->
  match saver (run evs s) with
  | Some p => pending_args p = documents (run evs s) /\
              due_at p <= last_time latest evs + 1000
  | None => store_holds (documents (run evs s)) (localStorage (browser (run evs s)))
  end.
Proof.
  intros Hchron Hinv. pose proof (run_up_to_date evs latest s Hchron Hinv) as Hend.
  unfold save_up_to_date in Hend.
  destruct (saver (run evs s)) as [p |]; [| exact Hend].
  destruct Hend as [Hargs Hquiet]. split; [exact Hargs |].
  unfold due_at. destruct (ceiling p); lia.
Qed.

Lemma pending_save_is_current_witness :
  match saver (@run Fragment.runtime sample_edits sample_session) with
  | Some p => pending_args p = documents (@run Fragment.runtime sample_edits sample_session) /\
              due_at p <= last_time 0 sample_edits + 1000
  | None => @store_holds Fragment.runtime
              (documents (@run Fragment.runtime sample_edits sample_session))
              (localStorage (browser (@run Fragment.runtime sample_edits sample_session)))
  end.
Proof.
  apply (@pending_save_is_current Fragment.runtime 0 sample_session sample_edits).
  - cbn. lia.
  - vm_compute. split; [reflexivity | discriminate].
Defined.

(** X6.  From the first render on, through any events in time order: once
    1000 ms have passed since the latest event, the timer has left in the
    store exactly the three documents on screen, nothing is pending, and
    the state of [App] is untouched.  With no event at all, the initial
    documents are stored one second after the first render. *)
Theorem store_catches_up `{Runtime} `{Examples} (now : Z) (b : Browser)
    (evs : list (Z * Event)) (t : Z) :
  chronological now evs ->
  last_time now evs + 1000 <= t ->
  let s := run evs (mount now b) in
  store_holds (documents s) (localStorage (browser (snd (tick t s)))) /\
  saver (snd (tick t s)) = None /\
  app (snd (tick t s)) = app s.
Proof.
  intros Hchron Hlate s.
  assert (Hmount : save_up_to_date now (mount now b)).
  { rewrite mount_result. unfold save_up_to_date, documents. cbn. split; [reflexivity | lia]. }
  assert (Hend : match saver s with
                 | Some p => pending_args p = documents s /\
                             due_at p <= last_time now evs + 1000
                 | None => store_holds (documents s) (localStorage (browser s))
                 end).
  { pose proof (run_up_to_date evs now (mount now b) Hchron Hmount) as Hrun.
    fold s in Hrun. unfold save_up_to_date in Hrun.
    destruct (saver s) as [p |]; [| exact Hrun].
    destruct Hrun as [Hargs Hquiet]. split; [exact Hargs |].
    unfold due_at. destruct (ceiling p); lia. }
  split; [| split].
  - unfold tick, expire. destruct (saver s) as [p |].
    + destruct Hend as [Hargs Hdue].
      destruct (Z.leb_spec (due_at p) t) as [_ | Hnot]; [| lia].
      rewrite write_snapshot_store. cbn. rewrite Hargs. apply stored_holds.
    + exact Hend.
  - unfold tick, expire. destruct (saver s) as [p |] eqn:Hsaver.
    + destruct Hend as [Hargs Hdue].
      destruct (Z.leb_spec (due_at p) t) as [_ | Hnot]; [| lia].
      reflexivity.
    + cbn. exact Hsaver.
  - apply tick_frame.
Qed.

Lemma store_catches_up_witness :
  @store_holds Fragment.runtime
    (documents (@run Fragment.runtime sample_edits sample_session))
    (localStorage (browser (snd (@tick Fragment.runtime 7500
                                   (@run Fragment.runtime sample_edits sample_session))))).
Proof.
  apply (@store_catches_up Fragment.runtime Fragment.examples 0 fresh_browser sample_edits 7500).
  - cbn. lia.
  - vm_compute. discriminate.
Defined.

(** Saving twice leaves what the second save wrote, and a save touches no
    key but its three. *)
Lemma stored_twice `{Runtime} (a a' : SaveArgs) (store : gmap string string) :
  stored a' (stored a store) = stored a' store.
Proof.
  unfold stored. apply map_eq. intros k. rewrite !lookup_insert.
  repeat case_decide; reflexivity.
Qed.

(** X7.  The function wrapped by [debouncedWriteStorage] writes the three
    keys and no other: a save after another leaves the store as the second
    alone would, whatever the first wrote, and a key other than [html],
    [css] and [params] keeps its value. *)
Theorem save_overwrites_save `{Runtime} (a a' : SaveArgs) (s : Session) :
  localStorage (browser (snd (write_snapshot a' (snd (write_snapshot a s))))) =
    localStorage (browser (snd (write_snapshot a' s))) /\
  store_holds a' (localStorage (browser (snd (write_snapshot a' (snd (write_snapshot a s)))))) /\
  (forall k, k <> "html" -> k <> "css" -> k <> "params" ->
     localStorage (browser (snd (write_snapshot a s))) !! k = localStorage (browser s) !! k).
Proof.
  rewrite !write_snapshot_store. cbn [snd browser localStorage]. split; [| split].
  - apply stored_twice.
  - apply stored_holds.
  - intros k Hh Hc Hp. unfold stored.
    rewrite !lookup_insert_ne by congruence. reflexivity.
Qed.

Lemma save_overwrites_save_witness :
  localStorage (browser (snd (@write_snapshot Fragment.runtime (mkSave "a" "b" JSNull)
                                sample_session))) !! "apiKey"
  = localStorage (browser sample_session) !! "apiKey".
Proof.
  apply (@save_overwrites_save Fragment.runtime (mkSave "a" "b" JSNull)
           (mkSave "a" "b" JSNull) sample_session); discriminate.
Defined.

(** ** The first render *)

(** X8.  A field that is read from the store but is empty gets the
    built-in default as well: an empty stored markup or stylesheet is
    replaced by the example document, and a stored data object that is
    falsy ([null], [false], 0, the empty string) by the default object.
    The data text is always the default or stored object printed with two
    spaces, and the credential always starts empty. *)
Theorem empty_stored_fields_get_defaults `{Runtime} `{Examples} (b : Browser) :
  (storedHtml (load b) = Some "" -> html (App_init b) = htmlExample) /\
  (storedCss (load b) = Some "" -> css (App_init b) = cssExample) /\
  (forall v, storedParams (load b) = Some v -> truthy v = false ->
     params (App_init b) = default_params) /\
  paramsJson (App_init b) = JSON_stringify (params (App_init b)) 2 /\
  apiKey (App_init b) = "".
Proof.
  unfold App_init. cbn [html css params paramsJson apiKey]. repeat split.
  - intros Hread. rewrite Hread. reflexivity.
  - intros Hread. rewrite Hread. reflexivity.
  - intros v Hread Hfalsy. rewrite Hread. cbn. rewrite Hfalsy. reflexivity.
Qed.

Lemma empty_stored_fields_get_defaults_witness :
  html (@App_init Fragment.runtime Fragment.examples cleared_browser)
  = @htmlExample Fragment.examples.
Proof.
  apply (@empty_stored_fields_get_defaults Fragment.runtime Fragment.examples cleared_browser).
  vm_compute. reflexivity.
Defined.

(** ** [Button] *)

(** X9.  [Button] runs its handler with [loading] set.  When the handler
    completes, [loading] is reset whatever the handler did; when the
    handler throws, the exception leaves [onClick] and the reset is
    skipped: [loading] stays as the handler left it, set if it did not
    touch it. *)
Theorem Button_resets_only_on_completion (onClick : Eff unit) (s : Session) :
  (forall s', onClick (with_loading true s) = (Normal tt, s') ->
     Button_onClick onClick s = (Normal tt, with_loading false s')) /\
  (forall e s', onClick (with_loading true s) = (Throw e, s') ->
     Button_onClick onClick s = (Throw e, s') /\
     (loading s' = loading (with_loading true s) ->
      loading (snd (Button_onClick onClick s)) = true)).
Proof.
  unfold Button_onClick, setLoading, modify, mbind, Eff_bind, with_loading.
  split.
  - intros s' Hrun. rewrite Hrun. reflexivity.
  - intros e s' Hrun. rewrite Hrun. cbn. auto.
Qed.

Lemma Button_resets_only_on_completion_witness :
  Button_onClick failing_handler sample_session =
    (Throw (mkError "Error" "rejected"), with_loading true sample_session).
Proof.
  apply (Button_resets_only_on_completion failing_handler sample_session).
  reflexivity.
Defined.

(** ** [publish] *)

(** X10.  Two answers with a status in 2xx that carry no identifier.  A
    body that is [null] makes reading [template] throw inside the [try]:
    the user is shown the failure message and the [TypeError] is logged.  A
    body without a [template] field is a success whose message names the
    identifier "undefined".  One request is sent in both cases. *)
Theorem publish_without_identifier (status : Z) (s : Session) :
  apiKey (app s) <> "" ->
  200 <= status < 300 ->
  publish (HttpResponse status JSNull) s =
    (Normal tt,
     after_publish publish_failed_message
       [ConsoleLog (LError (mkError "TypeError"
                              "Cannot read properties of null (reading 'template')"))]
       [publish_request (app s)] s) /\
  (forall body, get_template body = inr None ->
     publish (HttpResponse status body) s =
       (Normal tt,
        after_publish "Save successful. Use template ID undefined." []
          [publish_request (app s)] s)).
Proof.
  intros Hkey [Hlow Hhigh].
  assert (Htruthy : truthy_text (apiKey (app s)) = true).
  { unfold truthy_text. destruct (String.eqb_spec (apiKey (app s)) "");
      [contradiction | reflexivity]. }
  assert (Hok : forall body, axios_settle (HttpResponse status body) = inr (mkResponse body)).
  { intros body. cbn. destruct (Z.leb_spec 200 status); [| lia].
    destruct (Z.ltb_spec status 300); [reflexivity | lia]. }
  split.
  - unfold publish. rewrite Htruthy. cbn [negb]. run_eff. rewrite Hok. cbn.
    unfold after_publish, publish_request. reflexivity.
  - intros body Hnone. unfold publish. rewrite Htruthy. cbn [negb]. run_eff.
    rewrite Hok. cbn. rewrite Hnone. cbn.
    unfold after_publish, publish_request. rewrite app_nil_r. reflexivity.
Qed.

Lemma publish_without_identifier_witness :
  publish (HttpResponse 200 (JSObject [("id", JSString "t1")])) sample_keyed_session =
    (Normal tt,
     after_publish "Save successful. Use template ID undefined." []
       [publish_request (app sample_keyed_session)] sample_keyed_session).
Proof.
  apply (publish_without_identifier 200 sample_keyed_session).
  - vm_compute. discriminate.
  - lia.
  - reflexivity.
Defined.

(** What one event adds to the prompts and to the requests. *)
Lemma handle_browser_growth `{Runtime} (ev : Event) (s : Session) :
  exists shown sent,
    alerts (browser (snd (handle ev s))) = (alerts (browser s) ++ shown)%list /\
    requests (browser (snd (handle ev s))) = (requests (browser s) ++ sent)%list /\
    length shown = (if is_click ev then 1 else 0)%nat /\
    (length sent <= length shown)%nat /\
    Forall request_well_formed sent.
Proof.
  destruct ev as [text | text | text | text | reply]; cbn [handle is_click].
  1, 2, 4: exists [], []; run_eff; rewrite !app_nil_r; repeat split; cbn; auto; try lia.
  - exists [], []. run_eff. destruct (JSON_parse text); cbn; rewrite !app_nil_r;
      repeat split; cbn; auto; try lia.
  - run_eff. destruct (truthy_text (apiKey (app s))) eqn:Hkey; cbn.
    + assert (Hwf : request_well_formed
                      (mkRequest (host +:+ "/publish") (html (app s)) (css (app s))
                                 "application/json" (apiKey (app s)))).
      { repeat split. cbn. intros Hempty. rewrite Hempty in Hkey. discriminate. }
      destruct (axios_settle reply) as [e | response]; cbn;
        [| destruct (get_template (data response)); cbn];
        eexists [_], [_]; repeat split; cbn; auto; try lia.
    + exists [missing_key_message], []. rewrite app_nil_r. repeat split; cbn; auto; try lia.
Qed.

Lemma step_browser_growth `{Runtime} (now : Z) (ev : Event) (s : Session) :
  alerts (browser (step now ev s)) = alerts (browser (snd (handle ev (snd (tick now s))))) /\
  requests (browser (step now ev s)) = requests (browser (snd (handle ev (snd (tick now s))))).
Proof. unfold step. destruct (deps_changed _ _); auto. Qed.

(** X11.  In any run, one message is shown per click on the publish button
    and none otherwise; at most one request is sent per click and none
    otherwise; and every request goes to the fixed URL, as JSON, with a
    credential that is not empty. *)
Theorem clicks_account_for_prompts_and_requests `{Runtime} (evs : list (Z * Event)) :
  forall s : Session,
  exists shown sent,
    alerts (browser (run evs s)) = (alerts (browser s) ++ shown)%list /\
    requests (browser (run evs s)) = (requests (browser s) ++ sent)%list /\
    length shown = clicks evs /\
    (length sent <= clicks evs)%nat /\
    Forall request_well_formed sent.
Proof.
  induction evs as [| [t ev] rest IH]; intros s; cbn [run].
  - exists [], []. rewrite !app_nil_r. repeat split; auto.
  - destruct (IH (step t ev s)) as (shown' & sent' & Ha & Hr & Hlen & Hle & Hwf).
    destruct (step_browser_growth t ev s) as [Hsa Hsr].
    destruct (handle_browser_growth ev (snd (tick t s)))
      as (shown & sent & Ha0 & Hr0 & Hlen0 & Hle0 & Hwf0).
    destruct (tick_frame t s) as (_ & _ & Hta & Htr).
    exists (shown ++ shown')%list, (sent ++ sent')%list.
    rewrite Ha, Hr, Hsa, Hsr, Ha0, Hr0, Hta, Htr, <- !app_assoc.
    assert (Hclicks : clicks ((t, ev) :: rest)
                      = ((if is_click ev then 1 else 0) + clicks rest)%nat).
    { unfold clicks. rewrite filter_cons. cbn [snd].
      destruct (is_click ev); cbn; [reflexivity |].
      case_decide; [discriminate | reflexivity]. }
    repeat split; auto.
    + rewrite length_app, Hclicks. lia.
    + rewrite length_app, Hclicks. lia.
    + apply Forall_app. auto.
Qed.

(** X12.  No handler and no effect writes the store: after an event the
    store is what the timer of the save left.  An event that arrives
    before the pending save is due, or with nothing pending, leaves the
    store as it was. *)
Theorem store_written_by_timer_only `{Runtime} (now : Z) (ev : Event) (s : Session) :
  localStorage (browser (step now ev s)) = localStorage (browser (snd (tick now s))) /\
  (match saver s with Some p => now < due_at p | None => True end ->
   localStorage (browser (step now ev s)) = localStorage (browser s)).
Proof.
  assert (Hstep : localStorage (browser (step now ev s))
                  = localStorage (browser (snd (tick now s)))).
  { unfold step. rewrite <- (handle_store ev (snd (tick now s))).
    destruct (deps_changed _ _); reflexivity. }
  split; [exact Hstep |].
  intros Hearly. rewrite Hstep. unfold tick, expire.
  destruct (saver s) as [p |]; [| reflexivity].
  destruct (Z.leb_spec (due_at p) now) as [Hdue | _]; [lia | reflexivity].
Qed.

Lemma store_written_by_timer_only_witness :
  localStorage (browser (@step Fragment.runtime 400 (EditHtml "<p>") sample_session))
  = localStorage (browser sample_session).
Proof.
  apply (@store_written_by_timer_only Fragment.runtime 400 (EditHtml "<p>") sample_session).
  vm_compute. reflexivity.
Defined.

(** X13.  A click on the publish button, whatever its outcome, changes
    neither the documents, the data text and the credential, nor the
    preview, the store and the pending save: it leaves its trace in the
    prompts, the console and the requests only. *)
Theorem publish_touches_browser_only `{Runtime} (reply : HttpReply) (s : Session) :
  let s' := snd (handle (ClickPublish reply) s) in
  app s' = app s /\
  compiledHtml s' = compiledHtml s /\
  localStorage (browser s') = localStorage (browser s) /\
  saver s' = saver s /\
  loading s' = false.
Proof.
  cbn zeta. destruct (click_frame reply s) as (Happ & Hloading & Hpreview).
  repeat split; auto.
  - apply handle_store.
  - apply handle_saver.
Qed.

(** X14.  The first render shows no prompt, sends no request and leaves
    the store untouched.  It starts with an empty credential and the
    button enabled, displays the initial markup compiled against the
    initial data object (or raw when that fails), and leaves a save of the
    initial documents pending. *)
Theorem first_render `{Runtime} `{Examples} (now : Z) (b : Browser) :
  let s := mount now b in
  app s = App_init b /\
  apiKey (app s) = "" /\
  loading s = false /\
  compiledHtml s = displayed (html (App_init b)) (params (App_init b)) /\
  alerts (browser s) = alerts b /\
  requests (browser s) = requests b /\
  localStorage (browser s) = localStorage b /\
  (pending_args <$> saver s) = Some (documents s).
Proof.
  cbn zeta. rewrite mount_result. cbn. repeat split; reflexivity.
Qed.
